(** * primrose-mcp-asana: a shallow embedding of the request/response layer

    The development follows the TypeScript sources:
    - [Js]         the fragment of JavaScript values and built-ins the code uses
                   (truthiness, [String(v)], property reads, [JSON.stringify],
                   [parseInt], [URLSearchParams]);
    - [Errors]     the error classes of [utils/errors.js] and thrown values;
    - [Net]        [Headers], the outbound [fetch] and [async] computations;
    - [Env]        [types/env.ts]: tenant credentials read from request headers;
    - [Client]     [client.ts]: [getAuthHeaders], [request], [requestPaginated]
                   and the resource methods built on them;
    - [Formatters] [utils/formatters.ts]: JSON / Markdown rendering, [formatError];
    - [Tools]      tool handlers of [tools/tasks.ts] and the connection tool;
    - [Worker]     [index.ts]: the [fetch] entry point and its routing;
    - [Spec]       the vocabulary of the statements.

    Outbound network calls are made explicit: every computation that may call
    [fetch] returns the list of outbound requests it issued together with its
    result, so that "no outbound call" is a statement about that list. *)

From Stdlib Require Import ZArith List String Ascii Bool Lia.
From Stdlib Require Import Numbers.DecimalString DecimalPos.
Import ListNotations.

Open Scope list_scope.
Open Scope string_scope.

(* ========================================================================= *)
(** ** JavaScript values and built-ins                                        *)
(* ========================================================================= *)

Module Js.

(** A JavaScript Number.  Every number on the modelled paths is an integer (an
    HTTP status, a page size, the result of [parseInt]) or [NaN]. *)
Inductive JsNum : Type :=
| NaN
| Num (z : Z).

Set Warnings "-register-all".

(** A JavaScript value as it comes out of [JSON.parse] or an object literal.
    An object is its list of own properties in insertion order; a property
    that holds [undefined] is a property all the same (['k' in o] is true). *)
Inductive JsVal : Type :=
| VUndefined
| VNull
| VBool (b : bool)
| VNum (n : JsNum)
| VStr (s : string)
| VArr (items : list JsVal)
| VObj (fields : list (string * JsVal)).

Definition nl : string := String (ascii_of_nat 10) "".

(** [Array.prototype.join] on strings. *)
Fixpoint join (sep : string) (l : list string) : string :=
  match l with
  | [] => ""
  | [x] => x
  | x :: rest => x ++ sep ++ join sep rest
  end.

(** [String(n)] for an integer. *)
Definition decZ (z : Z) : string := NilZero.string_of_int (Z.to_int z).

Definition numToString (n : JsNum) : string :=
  match n with
  | NaN => "NaN"
  | Num z => decZ z
  end.

(** ToBoolean. *)
Definition truthy (v : JsVal) : bool :=
  match v with
  | VUndefined | VNull => false
  | VBool b => b
  | VNum NaN => false
  | VNum (Num z) => negb (z =? 0)%Z
  | VStr s => negb (s =? "")
  | VArr _ | VObj _ => true
  end.

(** [a || b] on values. *)
Definition jsOr (a b : JsVal) : JsVal := if truthy a then a else b.

(** [a ?? b]. *)
Definition nullish (v : JsVal) : bool :=
  match v with
  | VUndefined | VNull => true
  | _ => false
  end.

Definition jsCoalesce (a b : JsVal) : JsVal := if nullish a then b else a.

(** [String(v)], which is also what a template literal applies to [${v}].
    Inside [Array.prototype.join], [null] and [undefined] give the empty
    string. *)
Fixpoint toStr (v : JsVal) : string :=
  match v with
  | VUndefined => "undefined"
  | VNull => "null"
  | VBool true => "true"
  | VBool false => "false"
  | VNum n => numToString n
  | VStr s => s
  | VArr items =>
      join "," (map (fun x => if nullish x then "" else toStr x) items)
  | VObj _ => "[object Object]"
  end.

(** Own-property lookup in an object's property list. *)
Fixpoint lookup (k : string) (fields : list (string * JsVal)) : option JsVal :=
  match fields with
  | [] => None
  | (k', v) :: rest => if k' =? k then Some v else lookup k rest
  end.

(** ['k' in v] for an object value. *)
Definition hasKey (k : string) (v : JsVal) : bool :=
  match v with
  | VObj fields => match lookup k fields with Some _ => true | None => false end
  | _ => false
  end.

(** [typeof v === 'object'] (arrays and [null] included). *)
Definition typeofObject (v : JsVal) : bool :=
  match v with
  | VNull | VArr _ | VObj _ => true
  | _ => false
  end.

Definition isArray (v : JsVal) : bool :=
  match v with VArr _ => true | _ => false end.

(** A property read [v.k] for a property name that no built-in prototype
    defines (all the names the sources read are of that kind): [None] is the
    TypeError raised on [null] and [undefined]. *)
Definition getProp (v : JsVal) (k : string) : option JsVal :=
  match v with
  | VUndefined | VNull => None
  | VObj fields =>
      Some (match lookup k fields with Some x => x | None => VUndefined end)
  | _ => Some VUndefined
  end.

(** [v?.k]. *)
Definition optProp (v : JsVal) (k : string) : JsVal :=
  match getProp v k with Some x => x | None => VUndefined end.

(** [v?.[0]]. *)
Definition optIndex0 (v : JsVal) : JsVal :=
  match v with
  | VArr (x :: _) => x
  | VStr (String c _) => VStr (String c "")
  | VObj fields => match lookup "0" fields with Some x => x | None => VUndefined end
  | _ => VUndefined
  end.

(** *** JSON.stringify *)

Definition hexDigit (n : nat) : ascii :=
  match n with
  | 0 => "0" | 1 => "1" | 2 => "2" | 3 => "3" | 4 => "4" | 5 => "5" | 6 => "6"
  | 7 => "7" | 8 => "8" | 9 => "9" | 10 => "a" | 11 => "b" | 12 => "c"
  | 13 => "d" | 14 => "e" | _ => "f"
  end%char.

(** QuoteJSONString on one code unit below 0x80; bytes of a multi-byte UTF-8
    sequence pass through unchanged. *)
Definition escapeChar (c : ascii) : string :=
  let n := nat_of_ascii c in
  if Nat.eqb n 34 then "\" ++ String c ""
  else if Nat.eqb n 92 then "\\"
  else if Nat.eqb n 8 then "\b"
  else if Nat.eqb n 9 then "\t"
  else if Nat.eqb n 10 then "\n"
  else if Nat.eqb n 12 then "\f"
  else if Nat.eqb n 13 then "\r"
  else if Nat.ltb n 32 then
    "\u00" ++ String (hexDigit (n / 16)) (String (hexDigit (n mod 16)) "")
  else String c "".

Fixpoint escapeString (s : string) : string :=
  match s with
  | EmptyString => ""
  | String c rest => escapeChar c ++ escapeString rest
  end.

Definition dq : string := String (ascii_of_nat 34) "".

Definition quote (s : string) : string := dq ++ escapeString s ++ dq.

Definition orNull (o : option string) : string :=
  match o with Some s => s | None => "null" end.

(** [JSON.stringify(v)]: [None] is the [undefined] that [JSON.stringify] returns
    for [undefined]; properties holding [undefined] are left out of objects and
    printed as [null] in arrays. *)
Fixpoint stringify (v : JsVal) : option string :=
  match v with
  | VUndefined => None
  | VNull => Some "null"
  | VBool true => Some "true"
  | VBool false => Some "false"
  | VNum NaN => Some "null"
  | VNum (Num z) => Some (decZ z)
  | VStr s => Some (quote s)
  | VArr items =>
      Some ("[" ++ join "," (map (fun x => orNull (stringify x)) items) ++ "]")
  | VObj fields =>
      Some ("{" ++
            join "," (flat_map
                        (fun kv => match stringify (snd kv) with
                                   | Some s => [quote (fst kv) ++ ":" ++ s]
                                   | None => []
                                   end) fields) ++ "}")
  end.

(** [JSON.stringify(v, null, 2)] at the current indentation [ind]. *)
Fixpoint stringifyAt (ind : string) (v : JsVal) : option string :=
  let ind' := ind ++ "  " in
  match v with
  | VUndefined => None
  | VNull => Some "null"
  | VBool true => Some "true"
  | VBool false => Some "false"
  | VNum NaN => Some "null"
  | VNum (Num z) => Some (decZ z)
  | VStr s => Some (quote s)
  | VArr items =>
      match map (fun x => orNull (stringifyAt ind' x)) items with
      | [] => Some "[]"
      | parts =>
          Some ("[" ++ nl ++ ind' ++ join ("," ++ nl ++ ind') parts ++
                nl ++ ind ++ "]")
      end
  | VObj fields =>
      match flat_map (fun kv => match stringifyAt ind' (snd kv) with
                                | Some s => [quote (fst kv) ++ ": " ++ s]
                                | None => []
                                end) fields with
      | [] => Some "{}"
      | parts =>
          Some ("{" ++ nl ++ ind' ++ join ("," ++ nl ++ ind') parts ++
                nl ++ ind ++ "}")
      end
  end.

Definition stringify2 (v : JsVal) : option string := stringifyAt "" v.

(** *** parseInt(s, 10) *)

Definition isSpace (c : ascii) : bool :=
  let n := nat_of_ascii c in
  (Nat.eqb n 32 || (Nat.leb 9 n && Nat.leb n 13))%bool.

Definition digitVal (c : ascii) : option Z :=
  let n := nat_of_ascii c in
  if (Nat.leb 48 n && Nat.leb n 57)%bool then Some (Z.of_nat (n - 48)) else None.

Fixpoint skipSpaces (s : string) : string :=
  match s with
  | String c rest => if isSpace c then skipSpaces rest else s
  | EmptyString => s
  end.

(** The longest prefix of decimal digits, read left to right; [None] when
    there is no digit at all. *)
Fixpoint readDigits (acc : option Z) (s : string) : option Z :=
  match s with
  | String c rest =>
      match digitVal c with
      | Some d =>
          readDigits (Some (10 * match acc with Some a => a | None => 0 end + d)%Z)
                     rest
      | None => acc
      end
  | EmptyString => acc
  end.

(** [parseInt(s, 10)]: leading white space, an optional sign, then the longest
    run of digits; [NaN] when no digit follows.  The value is the exact integer,
    as in JavaScript below 2^53. *)
Definition parseInt (s : string) : JsNum :=
  let t := skipSpaces s in
  let '(neg, body) :=
    match t with
    | String "-" rest => (true, rest)
    | String "+" rest => (false, rest)
    | _ => (false, t)
    end in
  match readDigits None body with
  | Some z => Num (if neg then - z else z)%Z
  | None => NaN
  end.

(** *** URLSearchParams *)

Definition isUnreserved (c : ascii) : bool :=
  let n := nat_of_ascii c in
  ((Nat.leb 48 n && Nat.leb n 57) || (Nat.leb 65 n && Nat.leb n 90) ||
   (Nat.leb 97 n && Nat.leb n 122) ||
   Nat.eqb n 42 || Nat.eqb n 45 || Nat.eqb n 46 || Nat.eqb n 95)%bool.

Definition hexUpper (n : nat) : ascii :=
  match n with
  | 10 => "A" | 11 => "B" | 12 => "C" | 13 => "D" | 14 => "E" | 15 => "F"
  | _ => hexDigit n
  end%char.

(** application/x-www-form-urlencoded byte serialisation. *)
Fixpoint formEncode (s : string) : string :=
  match s with
  | EmptyString => ""
  | String c rest =>
      let n := nat_of_ascii c in
      (if isUnreserved c then String c ""
       else if Nat.eqb n 32 then "+"
       else String "%" (String (hexUpper (n / 16)) (String (hexUpper (n mod 16)) "")))
      ++ formEncode rest
  end.

(** [URLSearchParams.prototype.set]: replace the first pair named [k] and drop
    the others, or append. *)
Fixpoint paramsSet (k v : string) (ps : list (string * string))
  : list (string * string) :=
  match ps with
  | [] => [(k, v)]
  | (k', v') :: rest =>
      if k' =? k then (k, v) :: filter (fun p => negb (fst p =? k)) rest
      else (k', v') :: paramsSet k v rest
  end.

Definition paramsToString (ps : list (string * string)) : string :=
  join "&" (map (fun p => formEncode (fst p) ++ "=" ++ formEncode (snd p)) ps).

(** [s.split(c)] for a one-character separator. *)
Fixpoint splitOn (c : ascii) (s : string) : list string :=
  match s with
  | EmptyString => [""]
  | String x rest =>
      if Ascii.eqb x c then "" :: splitOn c rest
      else match splitOn c rest with
           | l :: ls => String x l :: ls
           | [] => [String x ""]
           end
  end.

(** [s.includes(c)] for a one-character needle. *)
Fixpoint includesChar (c : ascii) (s : string) : bool :=
  match s with
  | EmptyString => false
  | String c' rest => (Ascii.eqb c' c || includesChar c rest)%bool
  end.

End Js.

Import Js.

(* ========================================================================= *)
(** ** utils/errors.js                                                        *)
(* ========================================================================= *)

Module Errors.

(** Modelled from the spec: the error classes of [utils/errors.js], a file that
    is not among the sources.  The spec's taxonomy is [AuthenticationError],
    [RateLimitError] (carries the wait hint), [NotFoundError] and the generic
    API error carrying the status code; each constructor below records the
    arguments the client passes to [new]. *)
Inductive AsanaApiError : Type :=
| ApiError (message : string) (statusCode : Z)
| AuthenticationError (message : string)
| RateLimitError (message : string) (retryAfter : JsNum)
| NotFoundError (resource : string) (id : string).

(** Anything a [throw] can carry: an instance of [AsanaApiError], another
    [Error] instance (name and message), or a value that is no [Error]. *)
Inductive Thrown : Type :=
| ThrowApi (e : AsanaApiError)
| ThrowError (name : string) (message : string)
| ThrowValue (v : JsVal).

(** What [utils/errors.js] decides and the sources do not show: the message a
    [NotFoundError] builds from the resource and the path, the [retryable] flag
    of the classes the spec does not fix, and [formatErrorForLogging]. *)
Record ErrorsJs : Type := {
  notFoundMessage : string -> string -> string;
  notFoundRetryable : bool;
  apiRetryable : Z -> bool;
  formatErrorForLogging : Thrown -> JsVal
}.

(** Modelled from the spec: [error.message] of a classified error.  The
    message given to the constructor is the error's message; a not-found error
    names the resource and the path. *)
Definition apiMessage (E : ErrorsJs) (e : AsanaApiError) : string :=
  match e with
  | ApiError m _ => m
  | AuthenticationError m => m
  | RateLimitError m _ => m
  | NotFoundError r p => notFoundMessage E r p
  end.

(** Modelled from the spec: [error.retryable].  A rate-limit error is retryable
    and an authentication error is not. *)
Definition retryable (E : ErrorsJs) (e : AsanaApiError) : bool :=
  match e with
  | ApiError _ st => apiRetryable E st
  | AuthenticationError _ => false
  | RateLimitError _ _ => true
  | NotFoundError _ _ => notFoundRetryable E
  end.

(** Modelled from the spec: one [utils/errors.js] that fits the spec's words,
    used where a statement is evaluated on a concrete run.  A not-found error
    names the resource and the path, only rate-limit errors are retryable, and
    the details object carries the error's message. *)
Definition specErrors : ErrorsJs :=
  {| notFoundMessage := fun r p => r ++ " not found: " ++ p;
     notFoundRetryable := false;
     apiRetryable := fun _ => false;
     formatErrorForLogging := fun t =>
       match t with
       | ThrowApi (ApiError m _) | ThrowApi (AuthenticationError m)
       | ThrowApi (RateLimitError m _) | ThrowError _ m =>
           VObj [("message", VStr m)]
       | ThrowApi (NotFoundError r p) =>
           VObj [("message", VStr (r ++ " not found: " ++ p))]
       | ThrowValue v => VObj [("error", VStr (toStr v))]
       end |}.

(** The outcome of a synchronous computation that may throw. *)
Inductive Result (A : Type) : Type :=
| Ok (a : A)
| Throw (t : Thrown).

Arguments Ok {A} a.
Arguments Throw {A} t.

Definition rbind {A B} (m : Result A) (k : A -> Result B) : Result B :=
  match m with
  | Ok a => k a
  | Throw t => Throw t
  end.

Definition typeError (m : string) : Thrown := ThrowError "TypeError" m.

(** [v.k] with its TypeError. *)
Definition readProp (v : JsVal) (k : string) : Result JsVal :=
  match getProp v k with
  | Some x => Ok x
  | None =>
      Throw (typeError ("Cannot read properties of " ++ toStr v ++
                        " (reading '" ++ k ++ "')"))
  end.

End Errors.

Import Errors.

Notation "x <~ m ;; k" := (rbind m (fun x => k))
  (at level 61, m at next level, right associativity).

(* ========================================================================= *)
(** ** The network: outbound requests and asynchronous computations           *)
(* ========================================================================= *)

Module Net.

Definition Headers : Type := list (string * string).

Definition lowerChar (c : ascii) : ascii :=
  let n := nat_of_ascii c in
  if (Nat.leb 65 n && Nat.leb n 90)%bool then ascii_of_nat (n + 32) else c.

Fixpoint lowerStr (s : string) : string :=
  match s with
  | EmptyString => ""
  | String c rest => String (lowerChar c) (lowerStr rest)
  end.

(** [Headers.prototype.get]: names compare without case; the values of a
    repeated header are joined with a comma and a space; [None] is [null]. *)
Definition headersGet (hs : Headers) (name : string) : option string :=
  match map snd (filter (fun h => lowerStr (fst h) =? lowerStr name) hs) with
  | [] => None
  | vs => Some (join ", " vs)
  end.

(** The argument of one outbound [fetch(url, init)]. *)
Record FetchRequest : Type := {
  url : string;
  fetchMethod : option string;
  fetchHeaders : Headers;
  fetchBody : option string
}.

(** An upstream response.  [bodyJson] is the body read as JSON: [None] when
    the text is not JSON, where [response.json()] and [JSON.parse] throw. *)
Record FetchResponse : Type := {
  status : Z;
  respHeaders : Headers;
  bodyJson : option JsVal
}.

(** [response.ok]. *)
Definition ok (r : FetchResponse) : bool :=
  ((200 <=? status r) && (status r <=? 299))%Z.

(** The remote side: what [fetch] resolves or rejects with for a request. *)
Definition Upstream : Type := FetchRequest -> Result FetchResponse.

(** An [async] computation: given the remote side, the outbound requests it
    issued, in order, and its outcome. *)
Definition Async (A : Type) : Type := Upstream -> list FetchRequest * Result A.

Definition ret {A} (a : A) : Async A := fun _ => ([], Ok a).

Definition throw {A} (t : Thrown) : Async A := fun _ => ([], Throw t).

Definition bind {A B} (m : Async A) (k : A -> Async B) : Async B :=
  fun up =>
    match m up with
    | (tr, Ok a) => let '(tr', r) := k a up in ((tr ++ tr')%list, r)
    | (tr, Throw t) => (tr, Throw t)
    end.

Definition lift {A} (r : Result A) : Async A := fun _ => ([], r).

(** [await fetch(url, init)]. *)
Definition doFetch (rq : FetchRequest) : Async FetchResponse :=
  fun up => ([rq], up rq).

(** [try { body } catch (error) { handler(error) }]. *)
Definition tryCatch {A} (body : Async A) (handler : Thrown -> Async A) : Async A :=
  fun up =>
    match body up with
    | (tr, Ok a) => (tr, Ok a)
    | (tr, Throw t) => let '(tr', r) := handler t up in ((tr ++ tr')%list, r)
    end.

Definition calls {A} (x : list FetchRequest * Result A) : list FetchRequest := fst x.
Definition outcome {A} (x : list FetchRequest * Result A) : Result A := snd x.

End Net.

Import Net.

Notation "x <- m ;; k" := (bind m (fun x => k))
  (at level 61, m at next level, right associativity).

(* ========================================================================= *)
(** ** types/env.ts                                                           *)
(* ========================================================================= *)

Module Env.

(** The inbound request as the entry point reads it: [new URL(request.url)
    .pathname], [request.method] and [request.headers]. *)
Record Request : Type := {
  pathname : string;
  method : string;
  headers : Headers;
  body : string
}.

Record TenantCredentials : Type := {
  accessToken : string
}.

Definition parseTenantCredentials (request : Request) : TenantCredentials :=
  {| accessToken :=
       match headersGet (headers request) "X-Asana-Access-Token" with
       | Some v => if v =? "" then "" else v
       | None => ""
       end |}.

Definition missingCredentials : Thrown :=
  ThrowError "Error"
    "Missing credentials. Provide X-Asana-Access-Token header with your Asana Personal Access Token.".

Definition validateCredentials (credentials : TenantCredentials) : Result unit :=
  if accessToken credentials =? "" then Throw missingCredentials else Ok tt.







End Env.

Import Env.

(* ========================================================================= *)
(** ** client.ts                                                              *)
(* ========================================================================= *)

Module Client.

Definition API_BASE_URL : string := "https://app.asana.com/api/1.0".

(** The [RequestInit] a resource method hands to [request]. *)
Record RequestInit : Type := {
  initMethod : option string;
  initBody : option string;
  initHeaders : option Headers
}.

Definition noInit : RequestInit :=
  {| initMethod := None; initBody := None; initHeaders := None |}.

Record PaginationParams : Type := {
  limit : option Z;
  offset : option string
}.

Definition noParams : PaginationParams := {| limit := None; offset := None |}.

(** Object spread [{...a, ...b}] on string records: a key of [b] that [a] has
    keeps its place and takes [b]'s value, a new key is appended. *)
Fixpoint setKey (k v : string) (a : Headers) : Headers :=
  match a with
  | [] => [(k, v)]
  | (k', v') :: rest =>
      if k' =? k then (k, v) :: rest else (k', v') :: setKey k v rest
  end.

Definition spread (a b : Headers) : Headers :=
  fold_left (fun acc kv => setKey (fst kv) (snd kv) acc) b a.

Definition noTokenError : Thrown :=
  ThrowApi (AuthenticationError
              "No access token provided. Include X-Asana-Access-Token header.").

Definition authHeaders (credentials : TenantCredentials) : Headers :=
  [("Authorization", "Bearer " ++ accessToken credentials);
   ("Content-Type", "application/json");
   ("Accept", "application/json")].

Definition getAuthHeaders (credentials : TenantCredentials) : Result Headers :=
  if accessToken credentials =? "" then Throw noTokenError
  else Ok (authHeaders credentials).

(** [retryAfter ? parseInt(retryAfter, 10) : 60] on
    [response.headers.get('Retry-After')]. *)
Definition retryAfterHint (response : FetchResponse) : JsNum :=
  match headersGet (respHeaders response) "Retry-After" with
  | Some retryAfter => if retryAfter =? "" then Num 60 else parseInt retryAfter
  | None => Num 60
  end.

(** The message of a generic API error:
    [errorJson.errors?.[0]?.message || errorJson.message || message], with the
    default kept when [JSON.parse] or a property read throws. *)
Definition errorMessage (response : FetchResponse) : string :=
  let message := "Asana API error: " ++ decZ (status response) in
  match bodyJson response with
  | None => message
  | Some errorJson =>
      match getProp errorJson "errors" with
      | None => message
      | Some errors =>
          let first := if nullish errors then VUndefined else optIndex0 errors in
          toStr (jsOr (jsOr (optProp first "message") (optProp errorJson "message"))
                      (VStr message))
      end
  end.

Definition syntaxError : Thrown :=
  ThrowError "SyntaxError" "Unexpected token in JSON".

(** [await response.json()]. *)
Definition responseJson (response : FetchResponse) : Result JsVal :=
  match bodyJson response with
  | Some j => Ok j
  | None => Throw syntaxError
  end.

(** The [init] argument [request] gives to [fetch]:
    [{ ...options, headers: { ...auth, ...(options.headers || {}) } }]. *)
Definition outbound (auth : Headers) (endpoint : string) (options : RequestInit)
  : FetchRequest :=
  {| url := API_BASE_URL ++ endpoint;
     fetchMethod := initMethod options;
     fetchHeaders :=
       spread auth (match initHeaders options with Some h => h | None => [] end);
     fetchBody := initBody options |}.

(** What [request] does with the response, from the 429 test to
    [return json.data]. *)
Definition requestOutcome (endpoint : string) (response : FetchResponse)
  : Result JsVal :=
  if (status response =? 429)%Z then
    Throw (ThrowApi (RateLimitError "Rate limit exceeded" (retryAfterHint response)))
  else if ((status response =? 401) || (status response =? 403))%Z then
    Throw (ThrowApi (AuthenticationError
             "Authentication failed. Check your Asana access token."))
  else if (status response =? 404)%Z then
    Throw (ThrowApi (NotFoundError "Resource" endpoint))
  else if negb (ok response) then
    Throw (ThrowApi (ApiError (errorMessage response) (status response)))
  else if (status response =? 204)%Z then
    Ok VUndefined
  else
    json <~ responseJson response ;;
    readProp json "data".

Definition request (credentials : TenantCredentials)
    (endpoint : string) (options : RequestInit) : Async JsVal :=
  auth <- lift (getAuthHeaders credentials) ;;
  response <- doFetch (outbound auth endpoint options) ;;
  lift (requestOutcome endpoint response).

(** The URL suffix [requestPaginated] builds from the endpoint and the
    pagination parameters. *)
Definition paginatedUrl (endpoint : string) (params : PaginationParams) : string :=
  let q0 : list (string * string) := [] in
  let q1 := match limit params with
            | Some l => if truthy (VNum (Num l)) then paramsSet "limit" (decZ l) q0 else q0
            | None => q0
            end in
  let queryParams :=
            match offset params with
            | Some o => if o =? "" then q1 else paramsSet "offset" o q1
            | None => q1
            end in
  let separator := if includesChar "?" endpoint then "&" else "?" in
  endpoint ++
  (if paramsToString queryParams =? "" then ""
   else separator ++ paramsToString queryParams).

Definition outboundPaginated (auth : Headers) (endpoint : string)
    (params : PaginationParams) : FetchRequest :=
  {| url := API_BASE_URL ++ paginatedUrl endpoint params;
     fetchMethod := None;
     fetchHeaders := auth;
     fetchBody := None |}.

(** What [requestPaginated] does with the response. *)
Definition paginatedOutcome (response : FetchResponse) : Result JsVal :=
  if (status response =? 429)%Z then
    Throw (ThrowApi (RateLimitError "Rate limit exceeded" (retryAfterHint response)))
  else if ((status response =? 401) || (status response =? 403))%Z then
    Throw (ThrowApi (AuthenticationError
             "Authentication failed. Check your Asana access token."))
  else if negb (ok response) then
    Throw (ThrowApi (ApiError (errorMessage response) (status response)))
  else
    json <~ responseJson response ;;
    data <~ readProp json "data" ;;
    next_page <~ readProp json "next_page" ;;
    Ok (VObj [("data", data); ("nextPage", next_page)]).

Definition requestPaginated (credentials : TenantCredentials)
    (endpoint : string) (params : PaginationParams) : Async JsVal :=
  auth <- lift (getAuthHeaders credentials) ;;
  response <- doFetch (outboundPaginated auth endpoint params) ;;
  lift (paginatedOutcome response).

(** *** Resource methods *)

Definition getMe (credentials : TenantCredentials) : Async JsVal :=
  request credentials "/users/me" noInit.

(** [error instanceof Error ? error.message : fallback]. *)
Definition messageOr (E : ErrorsJs) (error : Thrown) (fallback : string) : string :=
  match error with
  | ThrowApi e => apiMessage E e
  | ThrowError _ m => m
  | ThrowValue _ => fallback
  end.

Definition testConnection (E : ErrorsJs) (credentials : TenantCredentials)
  : Async JsVal :=
  tryCatch
    (user <- getMe credentials ;;
     name <- lift (readProp user "name") ;;
     email <- lift (readProp user "email") ;;
     ret (VObj [("connected", VBool true);
                ("message",
                 VStr ("Connected as " ++ toStr name ++ " (" ++
                       toStr (jsOr email (VStr "no email")) ++ ")"));
                ("user", user)]))
    (fun error =>
       ret (VObj [("connected", VBool false);
                  ("message", VStr (messageOr E error "Connection failed"))])).

(** [createTask(data)]: [data] is the [TaskCreateInput] object. *)
Definition createTask (credentials : TenantCredentials) (data : JsVal)
  : Async JsVal :=
  request credentials "/tasks"
    {| initMethod := Some "POST";
       initBody := stringify (VObj [("data", data)]);
       initHeaders := None |}.

(** The endpoint [getTask] builds: the task and, for a non-empty [optFields],
    the [opt_fields] query. *)
Definition getTaskEndpoint (taskGid : string) (optFields : option (list string))
  : string :=
  let queryParams :=
    match optFields with
    | Some (f :: fs) => paramsSet "opt_fields" (join "," (f :: fs)) []
    | _ => []
    end in
  let query := paramsToString queryParams in
  "/tasks/" ++ taskGid ++ (if query =? "" then "" else "?" ++ query).

Definition getTask (credentials : TenantCredentials) (taskGid : string)
    (optFields : option (list string)) : Async JsVal :=
  request credentials (getTaskEndpoint taskGid optFields) noInit.

Definition listProjectTasks (credentials : TenantCredentials)
    (projectGid : string) (params : PaginationParams) : Async JsVal :=
  requestPaginated credentials ("/projects/" ++ projectGid ++ "/tasks") params.

(** [if (v) queryParams.set(k, v)] for an optional string. *)
Definition setIf (k : string) (v : option string) (ps : list (string * string))
  : list (string * string) :=
  match v with
  | Some x => if x =? "" then ps else paramsSet k x ps
  | None => ps
  end.

(** The argument of [listTasks]: six filters and the pagination parameters. *)
Record TaskFilters : Type := {
  project : option string;
  section : option string;
  workspace : option string;
  assignee : option string;
  completed_since : option string;
  modified_since : option string;
  pagination : PaginationParams
}.

Definition listTasksEndpoint (params : TaskFilters) : string :=
  let queryParams :=
    setIf "modified_since" (modified_since params)
      (setIf "completed_since" (completed_since params)
         (setIf "assignee" (assignee params)
            (setIf "workspace" (workspace params)
               (setIf "section" (section params)
                  (setIf "project" (project params) []))))) in
  let query := paramsToString queryParams in
  "/tasks" ++ (if query =? "" then "" else "?" ++ query).

Definition listTasks (credentials : TenantCredentials) (params : TaskFilters)
  : Async JsVal :=
  requestPaginated credentials (listTasksEndpoint params) (pagination params).

(** [params.limit] and [params.offset] of an object of search parameters. *)
Definition paginationOf (params : list (string * JsVal)) : PaginationParams :=
  {| limit := match lookup "limit" params with
              | Some (VNum (Num l)) => Some l
              | _ => None
              end;
     offset := match lookup "offset" params with
               | Some (VStr o) => Some o
               | _ => None
               end |}.

(** The loop of [searchTasks] over [Object.entries(params)]. *)
Definition searchQuery (params : list (string * JsVal)) : list (string * string) :=
  fold_left
    (fun queryParams kv =>
       if nullish (snd kv) then queryParams
       else paramsSet (fst kv) (toStr (snd kv)) queryParams)
    params [].

Definition searchTasksEndpoint (workspaceGid : string)
    (params : list (string * JsVal)) : string :=
  "/workspaces/" ++ workspaceGid ++ "/tasks/search?" ++
  paramsToString (searchQuery params).

Definition searchTasks (credentials : TenantCredentials) (workspaceGid : string)
    (params : list (string * JsVal)) : Async JsVal :=
  requestPaginated credentials (searchTasksEndpoint workspaceGid params)
    (paginationOf params).

(** [updateTask(taskGid, data)]: [data] is the [TaskUpdateInput] object. *)
Definition updateTask (credentials : TenantCredentials) (taskGid : string)
    (data : JsVal) : Async JsVal :=
  request credentials ("/tasks/" ++ taskGid)
    {| initMethod := Some "PUT";
       initBody := stringify (VObj [("data", data)]);
       initHeaders := None |}.

(** [deleteTask(taskGid)] awaits the request and returns nothing. *)
Definition deleteTask (credentials : TenantCredentials) (taskGid : string)
  : Async unit :=
  _ <- request credentials ("/tasks/" ++ taskGid)
         {| initMethod := Some "DELETE"; initBody := None; initHeaders := None |} ;;
  ret tt.

End Client.

Import Client.

(* ========================================================================= *)
(** ** utils/formatters.ts                                                    *)
(* ========================================================================= *)

Module Formatters.

(** A [for ... of] loop that pushes one computed element per item and stops at
    the first exception. *)
Fixpoint mapM {A B} (f : A -> Result B) (l : list A) : Result (list B) :=
  match l with
  | [] => Ok []
  | x :: rest =>
      y <~ f x ;;
      ys <~ mapM f rest ;;
      Ok (y :: ys)
  end.

Inductive ResponseFormat : Type :=
| FormatJson
| FormatMarkdown.

Record TextContent : Type := {
  type : string;
  text : option string
}.

Record ToolResponse : Type := {
  content : list TextContent;
  isError : option bool
}.

Definition textResponse (t : option string) : ToolResponse :=
  {| content := [{| type := "text"; text := t |}]; isError := None |}.

Definition upperChar (c : ascii) : ascii :=
  let n := nat_of_ascii c in
  if (Nat.leb 97 n && Nat.leb n 122)%bool then ascii_of_nat (n - 32) else c.

(** [str.charAt(0).toUpperCase() + str.slice(1)]; the entity types and keys
    the tools pass are ASCII. *)
Definition capitalize (str : string) : string :=
  match str with
  | EmptyString => ""
  | String c rest => String (upperChar c) rest
  end.

Definition formatKey (key : string) : string :=
  join " " (map capitalize (splitOn "_" key)).

(** [entityType.replace(/s$/, '')]. *)
Fixpoint dropFinalS (s : string) : string :=
  match s with
  | EmptyString => ""
  | String c EmptyString => if Ascii.eqb c "s" then "" else s
  | String c rest => String c (dropFinalS rest)
  end.

(** The shape shared by the eleven fixed-column tables: header, separator and
    one pushed line per item, joined with newlines. *)
Definition table (header separator : string)
    (row : JsVal -> Result string) (items : list JsVal) : Result string :=
  rows <~ mapM row items ;;
  Ok (join nl (header :: separator :: rows)).

Definition yesNo (v : JsVal) : string := if truthy v then "Yes" else "No".

Definition orDash (v : JsVal) : string := toStr (jsOr v (VStr "-")).

Definition taskRow (task : JsVal) : Result string :=
  gid <~ readProp task "gid" ;;
  name <~ readProp task "name" ;;
  assignee <~ readProp task "assignee" ;;
  due_on <~ readProp task "due_on" ;;
  due_at <~ readProp task "due_at" ;;
  completed <~ readProp task "completed" ;;
  Ok ("| " ++ toStr gid ++ " | " ++ orDash name ++ " | " ++
      orDash (optProp assignee "name") ++ " | " ++
      orDash (jsOr due_on due_at) ++ " | " ++ yesNo completed ++ " |").

Definition formatTasksTable (tasks : list JsVal) : Result string :=
  table "| GID | Name | Assignee | Due | Completed |" "|---|---|---|---|---|"
        taskRow tasks.

Definition projectRow (project : JsVal) : Result string :=
  gid <~ readProp project "gid" ;;
  name <~ readProp project "name" ;;
  team <~ readProp project "team" ;;
  archived <~ readProp project "archived" ;;
  due_on <~ readProp project "due_on" ;;
  Ok ("| " ++ toStr gid ++ " | " ++ toStr name ++ " | " ++
      orDash (optProp team "name") ++ " | " ++ yesNo archived ++ " | " ++
      orDash due_on ++ " |").

Definition formatProjectsTable (projects : list JsVal) : Result string :=
  table "| GID | Name | Team | Archived | Due |" "|---|---|---|---|---|"
        projectRow projects.

Definition workspaceRow (ws : JsVal) : Result string :=
  gid <~ readProp ws "gid" ;;
  name <~ readProp ws "name" ;;
  is_organization <~ readProp ws "is_organization" ;;
  Ok ("| " ++ toStr gid ++ " | " ++ toStr name ++ " | " ++
      yesNo is_organization ++ " |").

Definition formatWorkspacesTable (workspaces : list JsVal) : Result string :=
  table "| GID | Name | Organization |" "|---|---|---|" workspaceRow workspaces.

(** A row [| gid | name | third |] whose third cell is [item.k || '-']. *)
Definition plainRow (k : string) (item : JsVal) : Result string :=
  gid <~ readProp item "gid" ;;
  name <~ readProp item "name" ;;
  third <~ readProp item k ;;
  Ok ("| " ++ toStr gid ++ " | " ++ toStr name ++ " | " ++ orDash third ++ " |").

(** A row [| gid | name | third |] whose third cell is [item.k?.name || '-']. *)
Definition refRow (k : string) (item : JsVal) : Result string :=
  gid <~ readProp item "gid" ;;
  name <~ readProp item "name" ;;
  ref <~ readProp item k ;;
  Ok ("| " ++ toStr gid ++ " | " ++ toStr name ++ " | " ++
      orDash (optProp ref "name") ++ " |").

Definition formatTeamsTable (teams : list JsVal) : Result string :=
  table "| GID | Name | Visibility |" "|---|---|---|" (plainRow "visibility") teams.

Definition formatUsersTable (users : list JsVal) : Result string :=
  table "| GID | Name | Email |" "|---|---|---|" (plainRow "email") users.

Definition formatTagsTable (tags : list JsVal) : Result string :=
  table "| GID | Name | Color |" "|---|---|---|" (plainRow "color") tags.

Definition formatSectionsTable (sections : list JsVal) : Result string :=
  table "| GID | Name | Project |" "|---|---|---|" (refRow "project") sections.

Definition storyRow (story : JsVal) : Result string :=
  gid <~ readProp story "gid" ;;
  resource_subtype <~ readProp story "resource_subtype" ;;
  created_by <~ readProp story "created_by" ;;
  created_at <~ readProp story "created_at" ;;
  Ok ("| " ++ toStr gid ++ " | " ++ toStr resource_subtype ++ " | " ++
      orDash (optProp created_by "name") ++ " | " ++ orDash created_at ++ " |").

Definition formatStoriesTable (stories : list JsVal) : Result string :=
  table "| GID | Type | Author | Created |" "|---|---|---|---|" storyRow stories.

Definition formatPortfoliosTable (portfolios : list JsVal) : Result string :=
  table "| GID | Name | Owner |" "|---|---|---|" (refRow "owner") portfolios.

Definition goalRow (goal : JsVal) : Result string :=
  gid <~ readProp goal "gid" ;;
  name <~ readProp goal "name" ;;
  owner <~ readProp goal "owner" ;;
  status <~ readProp goal "status" ;;
  Ok ("| " ++ toStr gid ++ " | " ++ toStr name ++ " | " ++
      orDash (optProp owner "name") ++ " | " ++ orDash status ++ " |").

Definition formatGoalsTable (goals : list JsVal) : Result string :=
  table "| GID | Name | Owner | Status |" "|---|---|---|---|" goalRow goals.

Definition webhookRow (webhook : JsVal) : Result string :=
  gid <~ readProp webhook "gid" ;;
  target <~ readProp webhook "target" ;;
  active <~ readProp webhook "active" ;;
  resource <~ readProp webhook "resource" ;;
  Ok ("| " ++ toStr gid ++ " | " ++ orDash target ++ " | " ++ yesNo active ++
      " | " ++
      toStr (jsOr (jsOr (optProp resource "name") (optProp resource "gid"))
                  (VStr "-")) ++ " |").

Definition formatWebhooksTable (webhooks : list JsVal) : Result string :=
  table "| GID | Target | Active | Resource |" "|---|---|---|---|"
        webhookRow webhooks.

(** [Object.keys(v)] for the shapes JSON data takes: [None] is the TypeError on
    [null] and [undefined]. *)
Definition objectKeys (v : JsVal) : option (list string) :=
  match v with
  | VUndefined | VNull => None
  | VObj fields => Some (map fst fields)
  | VArr items => Some (map (fun i => decZ (Z.of_nat i)) (seq 0 (List.length items)))
  | VStr s => Some (map (fun i => decZ (Z.of_nat i)) (seq 0 (String.length s)))
  | _ => Some []
  end.

(** [record[k]] for an own key or an index; [None] is the TypeError. *)
Definition readKey (record : JsVal) (k : string) : option JsVal :=
  match record with
  | VUndefined | VNull => None
  | VObj fields =>
      Some (match lookup k fields with Some x => x | None => VUndefined end)
  | VArr items =>
      if k =? "length" then Some (VNum (Num (Z.of_nat (List.length items))))
      else
        Some (match find (fun i => decZ (Z.of_nat i) =? k) (seq 0 (List.length items)) with
              | Some i => nth i items VUndefined
              | None => VUndefined
              end)
  | VStr s =>
      if k =? "length" then Some (VNum (Num (Z.of_nat (String.length s))))
      else
        Some (match find (fun i => decZ (Z.of_nat i) =? k) (seq 0 (String.length s)) with
              | Some i => match String.get i s with
                          | Some c => VStr (String c "")
                          | None => VUndefined
                          end
              | None => VUndefined
              end)
  | _ => Some VUndefined
  end.

Definition formatGenericTable (items : list JsVal) : Result string :=
  match items with
  | [] => Ok "_No items_"
  | first :: _ =>
      match objectKeys first with
      | None => Throw (typeError "Cannot convert undefined or null to object")
      | Some allKeys =>
          let keys := firstn 5 allKeys in
          rows <~ mapM (fun record =>
                          values <~ mapM (fun k =>
                              match readKey record k with
                              | Some v => Ok (toStr (jsCoalesce v (VStr "-")))
                              | None =>
                                  Throw (typeError
                                    ("Cannot read properties of " ++ toStr record ++
                                     " (reading '" ++ k ++ "')"))
                              end) keys ;;
                          Ok ("| " ++ join " | " values ++ " |")) items ;;
          Ok (join nl (("| " ++ join " | " keys ++ " |") ::
                       ("|" ++ join "|" (map (fun _ => "---") keys) ++ "|") ::
                       rows))
      end
  end.

(** [formatPaginatedAsMarkdown(data, entityType)].  Its callers pass an object
    whose [data] is an array; on anything else [data.data.length] does not
    yield the count of an array, a case the callers' guards exclude. *)
Definition formatPaginatedAsMarkdown (data : JsVal) (entityType : string)
  : Result string :=
  match getProp data "data" with
  | Some (VArr items) =>
      let nextPage := optProp data "nextPage" in
      let lines :=
        app ["## " ++ capitalize entityType;
             "";
             "**Showing:** " ++ decZ (Z.of_nat (List.length items)) ++ " items"]
            (app (if truthy nextPage then
                    ["**More available:** Yes (offset: `" ++
                     toStr (optProp nextPage "offset") ++ "`)"]
                  else [])
                 [""]) in
      match items with
      | [] => Ok (join nl (app lines ["_No items found._"]))
      | _ =>
          tbl <~ (if entityType =? "tasks" then formatTasksTable items
                  else if entityType =? "projects" then formatProjectsTable items
                  else if entityType =? "workspaces" then formatWorkspacesTable items
                  else if entityType =? "teams" then formatTeamsTable items
                  else if entityType =? "users" then formatUsersTable items
                  else if entityType =? "tags" then formatTagsTable items
                  else if entityType =? "sections" then formatSectionsTable items
                  else if entityType =? "stories" then formatStoriesTable items
                  else if entityType =? "portfolios" then formatPortfoliosTable items
                  else if entityType =? "goals" then formatGoalsTable items
                  else if entityType =? "webhooks" then formatWebhooksTable items
                  else formatGenericTable items) ;;
          Ok (join nl (app lines [tbl]))
      end
  | _ => Throw (typeError "Cannot read properties of undefined (reading 'length')")
  end.

Definition isPaginatedResponse (data : JsVal) : bool :=
  (typeofObject data && negb (nullish data) && hasKey "data" data &&
   isArray (optProp data "data"))%bool.

Definition formatArrayAsMarkdown (data : list JsVal) (entityType : string)
  : Result string :=
  formatPaginatedAsMarkdown (VObj [("data", VArr data)]) entityType.

Definition formatObjectAsMarkdown (data : list (string * JsVal))
    (entityType : string) : string :=
  join nl
    (app ["## " ++ capitalize (dropFinalS entityType); ""]
     (flat_map
       (fun kv =>
          let '(key, value) := kv in
          if nullish value then []
          else if typeofObject value then
            ["**" ++ formatKey key ++ ":**";
             "```json";
             orNull (stringify2 value);
             "```"]
          else ["**" ++ formatKey key ++ ":** " ++ toStr value])
       data)).

Definition formatAsMarkdown (data : JsVal) (entityType : string) : Result string :=
  if isPaginatedResponse data then formatPaginatedAsMarkdown data entityType
  else
    match data with
    | VArr items => formatArrayAsMarkdown items entityType
    | VObj fields => Ok (formatObjectAsMarkdown fields entityType)
    | _ => Ok (toStr data)
    end.

Definition formatResponse (data : JsVal) (format : ResponseFormat)
    (entityType : string) : Result ToolResponse :=
  match format with
  | FormatMarkdown =>
      md <~ formatAsMarkdown data entityType ;;
      Ok (textResponse (Some md))
  | FormatJson => Ok (textResponse (stringify2 data))
  end.

(** The [message] that [formatError] computes. *)
Definition errorText (E : ErrorsJs) (error : Thrown) : string :=
  match error with
  | ThrowApi e =>
      ("Error: " ++ apiMessage E e) ++ (if retryable E e then " (retryable)" else "")
  | ThrowError _ m => "Error: " ++ m
  | ThrowValue v => "Error: " ++ toStr v
  end.

Definition formatError (E : ErrorsJs) (error : Thrown) : ToolResponse :=
  let errorInfo := formatErrorForLogging E error in
  let message := errorText E error in
  {| content :=
       [{| type := "text";
           text := stringify2 (VObj [("error", VStr message);
                                     ("details", errorInfo)]) |}];
     isError := Some true |}.

End Formatters.

Import Formatters.

(* ========================================================================= *)
(** ** tools/tasks.ts and the connection tool of index.ts                     *)
(* ========================================================================= *)

Module Tools.

Definition optStr (o : option string) : JsVal :=
  match o with Some s => VStr s | None => VUndefined end.

Definition optBool (o : option bool) : JsVal :=
  match o with Some b => VBool b | None => VUndefined end.

Definition optStrs (o : option (list string)) : JsVal :=
  match o with Some l => VArr (map VStr l) | None => VUndefined end.

(** [asana_create_task]. *)
Module CreateTask.

(** The arguments after schema validation; an absent optional argument is
    [undefined]. *)
Record Args : Type := {
  name : string;
  workspace : option string;
  projects : option (list string);
  assignee : option string;
  dueOn : option string;
  dueAt : option string;
  startOn : option string;
  notes : option string;
  htmlNotes : option string;
  completed : option bool;
  tags : option (list string);
  parent : option string;
  resourceSubtype : option string
}.

(** The [TaskCreateInput] literal the handler builds. *)
Definition input (a : Args) : JsVal :=
  VObj [("name", VStr (name a));
        ("workspace", optStr (workspace a));
        ("projects", optStrs (projects a));
        ("assignee", optStr (assignee a));
        ("due_on", optStr (dueOn a));
        ("due_at", optStr (dueAt a));
        ("start_on", optStr (startOn a));
        ("notes", optStr (notes a));
        ("html_notes", optStr (htmlNotes a));
        ("completed", optBool (completed a));
        ("tags", optStrs (tags a));
        ("parent", optStr (parent a));
        ("resource_subtype", optStr (resourceSubtype a))].

(** The [try] block. *)
Definition body (credentials : TenantCredentials) (a : Args) : Async ToolResponse :=
  task <- createTask credentials (input a) ;;
  ret (textResponse
         (stringify2 (VObj [("success", VBool true);
                            ("message", VStr "Task created");
                            ("task", task)]))).

Definition handler (E : ErrorsJs) (credentials : TenantCredentials) (a : Args)
  : Async ToolResponse :=
  tryCatch (body credentials a) (fun error => ret (formatError E error)).

End CreateTask.

(** [asana_get_task]. *)
Module GetTask.

Record Args : Type := {
  taskGid : string;
  optFields : option (list string);
  format : ResponseFormat
}.

Definition body (credentials : TenantCredentials) (a : Args) : Async ToolResponse :=
  task <- getTask credentials (taskGid a) (optFields a) ;;
  lift (formatResponse task (format a) "task").

Definition handler (E : ErrorsJs) (credentials : TenantCredentials) (a : Args)
  : Async ToolResponse :=
  tryCatch (body credentials a) (fun error => ret (formatError E error)).

End GetTask.

(** [asana_list_project_tasks]. *)
Module ListProjectTasks.

Record Args : Type := {
  projectGid : string;
  limit : option Z;
  offset : option string;
  format : ResponseFormat
}.

Definition body (credentials : TenantCredentials) (a : Args) : Async ToolResponse :=
  result <- listProjectTasks credentials (projectGid a)
              {| Client.limit := limit a; Client.offset := offset a |} ;;
  lift (formatResponse result (format a) "tasks").

Definition handler (E : ErrorsJs) (credentials : TenantCredentials) (a : Args)
  : Async ToolResponse :=
  tryCatch (body credentials a) (fun error => ret (formatError E error)).

End ListProjectTasks.

(** [asana_test_connection], registered in index.ts. *)
Module TestConnection.

Definition body (E : ErrorsJs) (credentials : TenantCredentials)
  : Async ToolResponse :=
  result <- testConnection E credentials ;;
  ret (textResponse (stringify2 result)).

Definition handler (E : ErrorsJs) (credentials : TenantCredentials)
  : Async ToolResponse :=
  tryCatch (body E credentials)
    (fun error =>
       ret {| content :=
                [{| type := "text";
                    text := Some ("Connection failed: " ++
                                  messageOr E error "Unknown error") |}];
              isError := Some true |}).

End TestConnection.

(** An argument declared [.nullable().optional()]: left out, [null], or
    given. *)
Inductive Nullable : Type :=
| Absent
| IsNull
| Given (s : string).

Definition nullableStr (n : Nullable) : JsVal :=
  match n with
  | Absent => VUndefined
  | IsNull => VNull
  | Given s => VStr s
  end.

(** [asana_update_task]. *)
Module UpdateTask.

Record Args : Type := {
  taskGid : string;
  name : option string;
  assignee : Nullable;
  dueOn : Nullable;
  dueAt : Nullable;
  startOn : Nullable;
  notes : option string;
  htmlNotes : option string;
  completed : option bool
}.

(** The [TaskUpdateInput] literal the handler builds. *)
Definition input (a : Args) : JsVal :=
  VObj [("name", optStr (name a));
        ("assignee", nullableStr (assignee a));
        ("due_on", nullableStr (dueOn a));
        ("due_at", nullableStr (dueAt a));
        ("start_on", nullableStr (startOn a));
        ("notes", optStr (notes a));
        ("html_notes", optStr (htmlNotes a));
        ("completed", optBool (completed a))].

Definition body (credentials : TenantCredentials) (a : Args) : Async ToolResponse :=
  task <- updateTask credentials (taskGid a) (input a) ;;
  ret (textResponse
         (stringify2 (VObj [("success", VBool true);
                            ("message", VStr "Task updated");
                            ("task", task)]))).

Definition handler (E : ErrorsJs) (credentials : TenantCredentials) (a : Args)
  : Async ToolResponse :=
  tryCatch (body credentials a) (fun error => ret (formatError E error)).

End UpdateTask.

(** [asana_delete_task]. *)
Module DeleteTask.

Definition body (credentials : TenantCredentials) (taskGid : string)
  : Async ToolResponse :=
  _ <- deleteTask credentials taskGid ;;
  ret (textResponse
         (stringify2 (VObj [("success", VBool true);
                            ("message", VStr "Task deleted")]))).

Definition handler (E : ErrorsJs) (credentials : TenantCredentials)
    (taskGid : string) : Async ToolResponse :=
  tryCatch (body credentials taskGid) (fun error => ret (formatError E error)).

End DeleteTask.

(** [asana_list_tasks]. *)
Module ListTasks.

Record Args : Type := {
  project : option string;
  section : option string;
  workspace : option string;
  assignee : option string;
  completedSince : option string;
  modifiedSince : option string;
  limit : option Z;
  offset : option string;
  format : ResponseFormat
}.

Definition filters (a : Args) : TaskFilters :=
  {| Client.project := project a;
     Client.section := section a;
     Client.workspace := workspace a;
     Client.assignee := assignee a;
     completed_since := completedSince a;
     modified_since := modifiedSince a;
     pagination := {| Client.limit := limit a; Client.offset := offset a |} |}.

Definition body (credentials : TenantCredentials) (a : Args) : Async ToolResponse :=
  result <- listTasks credentials (filters a) ;;
  lift (formatResponse result (format a) "tasks").

Definition handler (E : ErrorsJs) (credentials : TenantCredentials) (a : Args)
  : Async ToolResponse :=
  tryCatch (body credentials a) (fun error => ret (formatError E error)).

End ListTasks.

(** [asana_search_tasks]. *)
Module SearchTasks.

Record Args : Type := {
  workspaceGid : string;
  text : option string;
  completed : option bool;
  assigneeAny : option string;
  projectsAny : option string;
  tagsAny : option string;
  dueOnBefore : option string;
  dueOnAfter : option string;
  sortBy : option string;
  sortAscending : option bool;
  limit : option Z;
  offset : option string;
  format : ResponseFormat
}.

Definition optNum (o : option Z) : JsVal :=
  match o with Some z => VNum (Num z) | None => VUndefined end.

(** The object of search parameters the handler builds. *)
Definition params (a : Args) : list (string * JsVal) :=
  [("text", optStr (text a));
   ("completed", optBool (completed a));
   ("assignee.any", optStr (assigneeAny a));
   ("projects.any", optStr (projectsAny a));
   ("tags.any", optStr (tagsAny a));
   ("due_on.before", optStr (dueOnBefore a));
   ("due_on.after", optStr (dueOnAfter a));
   ("sort_by", optStr (sortBy a));
   ("sort_ascending", optBool (sortAscending a));
   ("limit", optNum (limit a));
   ("offset", optStr (offset a))].

Definition body (credentials : TenantCredentials) (a : Args) : Async ToolResponse :=
  result <- searchTasks credentials (workspaceGid a) (params a) ;;
  lift (formatResponse result (format a) "tasks").

Definition handler (E : ErrorsJs) (credentials : TenantCredentials) (a : Args)
  : Async ToolResponse :=
  tryCatch (body credentials a) (fun error => ret (formatError E error)).

End SearchTasks.

End Tools.

Import Tools.

(* ========================================================================= *)
(** ** index.ts                                                               *)
(* ========================================================================= *)

Module Worker.

Definition SERVER_NAME : string := "primrose-mcp-asana".
Definition SERVER_VERSION : string := "1.0.0".

(** A call of one of the tools embedded above, with its validated arguments. *)
Inductive ToolCall : Type :=
| CallCreateTask (a : CreateTask.Args)
| CallGetTask (a : GetTask.Args)
| CallListProjectTasks (a : ListProjectTasks.Args)
| CallTestConnection.

(** The request-scoped server: its identification and the handlers registered
    on it, each closed over the client built from the tenant's credentials.
    The other [register...Tools] calls add handlers of the same three shapes
    as the task tools. *)
Record McpServer : Type := {
  serverName : string;
  serverVersion : string;
  callTool : ToolCall -> Async ToolResponse
}.

Definition createStatelessServer (E : ErrorsJs) (credentials : TenantCredentials)
  : McpServer :=
  {| serverName := SERVER_NAME;
     serverVersion := SERVER_VERSION;
     callTool := fun c =>
       match c with
       | CallCreateTask a => CreateTask.handler E credentials a
       | CallGetTask a => GetTask.handler E credentials a
       | CallListProjectTasks a => ListProjectTasks.handler E credentials a
       | CallTestConnection => TestConnection.handler E credentials
       end |}.

(** [new Response(body, { status, headers })]; the status defaults to 200. *)
Record Response : Type := {
  resStatus : Z;
  resHeaders : Headers;
  resBody : string
}.

Definition jsonHeaders : Headers := [("Content-Type", "application/json")].

Definition toolNames : list JsVal :=
  [
    VStr "asana_list_workspaces"; VStr "asana_get_workspace";
    VStr "asana_update_workspace"; VStr "asana_add_user_to_workspace";
    VStr "asana_remove_user_from_workspace"; VStr "asana_get_me";
    VStr "asana_get_user"; VStr "asana_list_workspace_users";
    VStr "asana_create_team"; VStr "asana_get_team"; VStr "asana_update_team";
    VStr "asana_list_teams"; VStr "asana_list_user_teams";
    VStr "asana_list_team_users"; VStr "asana_add_user_to_team";
    VStr "asana_remove_user_from_team"; VStr "asana_create_project";
    VStr "asana_get_project"; VStr "asana_update_project";
    VStr "asana_delete_project"; VStr "asana_duplicate_project";
    VStr "asana_list_projects"; VStr "asana_get_project_task_counts";
    VStr "asana_add_members_to_project";
    VStr "asana_remove_members_from_project";
    VStr "asana_create_project_status"; VStr "asana_list_project_statuses";
    VStr "asana_create_section"; VStr "asana_get_section";
    VStr "asana_update_section"; VStr "asana_delete_section";
    VStr "asana_list_project_sections"; VStr "asana_add_task_to_section";
    VStr "asana_move_section"; VStr "asana_create_task";
    VStr "asana_get_task"; VStr "asana_update_task"; VStr "asana_delete_task";
    VStr "asana_duplicate_task"; VStr "asana_list_tasks";
    VStr "asana_list_project_tasks"; VStr "asana_list_section_tasks";
    VStr "asana_search_tasks"; VStr "asana_create_subtask";
    VStr "asana_list_subtasks"; VStr "asana_set_parent_task";
    VStr "asana_add_project_to_task"; VStr "asana_remove_project_from_task";
    VStr "asana_add_tag_to_task"; VStr "asana_remove_tag_from_task";
    VStr "asana_add_followers_to_task"; VStr "asana_list_task_dependencies";
    VStr "asana_add_task_dependencies"; VStr "asana_remove_task_dependencies";
    VStr "asana_list_task_dependents"; VStr "asana_create_tag";
    VStr "asana_get_tag"; VStr "asana_update_tag"; VStr "asana_delete_tag";
    VStr "asana_list_tags"; VStr "asana_list_task_tags";
    VStr "asana_list_tag_tasks"; VStr "asana_add_comment";
    VStr "asana_get_story"; VStr "asana_update_comment";
    VStr "asana_delete_comment"; VStr "asana_list_task_stories";
    VStr "asana_get_attachment"; VStr "asana_delete_attachment";
    VStr "asana_list_task_attachments"; VStr "asana_create_custom_field";
    VStr "asana_get_custom_field"; VStr "asana_update_custom_field";
    VStr "asana_delete_custom_field"; VStr "asana_list_custom_fields";
    VStr "asana_add_custom_field_to_project";
    VStr "asana_remove_custom_field_from_project";
    VStr "asana_create_portfolio"; VStr "asana_get_portfolio";
    VStr "asana_update_portfolio"; VStr "asana_delete_portfolio";
    VStr "asana_list_portfolios"; VStr "asana_list_portfolio_items";
    VStr "asana_add_item_to_portfolio";
    VStr "asana_remove_item_from_portfolio";
    VStr "asana_add_members_to_portfolio";
    VStr "asana_remove_members_from_portfolio"; VStr "asana_create_goal";
    VStr "asana_get_goal"; VStr "asana_update_goal"; VStr "asana_delete_goal";
    VStr "asana_list_goals"; VStr "asana_add_followers_to_goal";
    VStr "asana_list_goal_parent_goals"; VStr "asana_list_goal_relationships";
    VStr "asana_add_supporting_relationship";
    VStr "asana_remove_supporting_relationship"; VStr "asana_create_webhook";
    VStr "asana_get_webhook"; VStr "asana_update_webhook";
    VStr "asana_delete_webhook"; VStr "asana_list_webhooks";
    VStr "asana_typeahead"; VStr "asana_test_connection"
  ].

(** The default response's document. *)
Definition capabilities : JsVal :=
  VObj [("name", VStr SERVER_NAME);
        ("version", VStr SERVER_VERSION);
        ("description", VStr "Multi-tenant Asana MCP Server");
        ("endpoints",
         VObj [("mcp", VStr "/mcp (POST) - Streamable HTTP MCP endpoint");
               ("health", VStr "/health - Health check")]);
        ("authentication",
         VObj [("description",
                VStr "Pass your Asana access token via request headers");
               ("required_headers",
                VObj [("X-Asana-Access-Token",
                       VStr "Asana Personal Access Token or OAuth access token")])]);
        ("tools", VArr toolNames)].

Definition healthResponse : Response :=
  {| resStatus := 200;
     resHeaders := jsonHeaders;
     resBody := orNull (stringify (VObj [("status", VStr "ok");
                                         ("server", VStr SERVER_NAME)])) |}.

Definition unauthorizedResponse (E : ErrorsJs) (error : Thrown) : Response :=
  {| resStatus := 401;
     resHeaders := jsonHeaders;
     resBody :=
       orNull (stringify
                 (VObj [("error", VStr "Unauthorized");
                        ("message", VStr (messageOr E error "Invalid credentials"));
                        ("required_headers",
                         VArr [VStr "X-Asana-Access-Token"])])) |}.

Definition sseResponse : Response :=
  {| resStatus := 501;
     resHeaders := [];
     resBody := "SSE endpoint requires Durable Objects. Enable in wrangler.jsonc." |}.

Definition defaultResponse : Response :=
  {| resStatus := 200;
     resHeaders := jsonHeaders;
     resBody := orNull (stringify capabilities) |}.

Section Fetch.

Variable E : ErrorsJs.

(** [createMcpHandler(server)] of the MCP library: the streamable-HTTP
    handler that serves a request from the tools of [server]. *)
Variable createMcpHandler : McpServer -> Request -> Async Response.

Definition fetch (request : Request) : Async Response :=
  if pathname request =? "/health" then ret healthResponse
  else if ((pathname request =? "/mcp") && (method request =? "POST"))%bool then
    let credentials := parseTenantCredentials request in
    match validateCredentials credentials with
    | Throw error => ret (unauthorizedResponse E error)
    | Ok _ =>
        let server := createStatelessServer E credentials in
        createMcpHandler server request
    end
  else if pathname request =? "/sse" then ret sseResponse
  else ret defaultResponse.

End Fetch.

End Worker.

Import Worker.

(* ========================================================================= *)
(** ** Statements' vocabulary                                                 *)
(* ========================================================================= *)

Module Spec.

(** A JSON object, as opposed to a primitive, an array, [null] or [undefined]. *)
Definition isObject (v : JsVal) : Prop :=
  match v with VObj _ => True | _ => False end.

(** The five cells of a task's table row, written after the spec: the GID,
    the name, the assignee's name, the due date ([due_on], else [due_at]) and
    the completion flag, with ["-"] for what is missing. *)
Definition taskCells (task : JsVal) : list string :=
  [toStr (optProp task "gid");
   orDash (optProp task "name");
   orDash (optProp (optProp task "assignee") "name");
   orDash (jsOr (optProp task "due_on") (optProp task "due_at"));
   yesNo (optProp task "completed")].

Definition taskLine (task : JsVal) : string :=
  "| " ++ join " | " (taskCells task) ++ " |".

Definition newline : ascii := ascii_of_nat 10.

(** A text without line break. *)
Definition singleLine (s : string) : Prop := includesChar newline s = false.

(** The lines above the table in the Markdown rendering of a page: heading,
    item count and, when there is a next page, its offset token. *)
Definition pageLines (entityType : string) (count : nat) (more : option string)
  : list string :=
  match more with
  | Some o =>
      ["## " ++ capitalize entityType; "";
       "**Showing:** " ++ decZ (Z.of_nat count) ++ " items";
       "**More available:** Yes (offset: `" ++ o ++ "`)"; ""]
  | None =>
      ["## " ++ capitalize entityType; "";
       "**Showing:** " ++ decZ (Z.of_nat count) ++ " items"; ""]
  end.

(** The request was answered by the transport itself, with this status, and
    not by the MCP handler. *)
Definition answeredWith (code : Z) (x : list FetchRequest * Result Response) : Prop :=
  exists r, x = ([], Ok r) /\ resStatus r = code.

(** The error both request paths throw on 401 and 403. *)
Definition authFailed : Thrown :=
  ThrowApi (AuthenticationError
              "Authentication failed. Check your Asana access token.").

(** The message of a generic API error when the body offers none. *)
Definition defaultMessage (response : FetchResponse) : string :=
  "Asana API error: " ++ decZ (status response).

Fixpoint allChars (p : ascii -> bool) (s : string) : bool :=
  match s with
  | EmptyString => true
  | String c rest => (p c && allChars p rest)%bool
  end.

Fixpoint countChar (c : ascii) (s : string) : nat :=
  match s with
  | EmptyString => 0
  | String x rest => (if Ascii.eqb x c then 1 else 0) + countChar c rest
  end.

(** The characters a form-encoded name or value is made of. *)
Definition encodedChar (c : ascii) : bool :=
  (isUnreserved c || Ascii.eqb c "+" || Ascii.eqb c "%")%bool.

(** The characters of a serialised query: encoded text, [&] and [=]. *)
Definition queryChar (c : ascii) : bool :=
  (encodedChar c || Ascii.eqb c "&" || Ascii.eqb c "=")%bool.



(** The pair a search parameter contributes to the query, if any. *)
Definition searchPair (kv : string * JsVal) : list (string * string) :=
  if nullish (snd kv) then [] else [(fst kv, toStr (snd kv))].

(** The pagination pairs [requestPaginated] appends: a non-zero limit and a
    non-empty offset. *)
Definition sentPairs (params : PaginationParams) : list (string * string) :=
  app (match limit params with
       | Some l => if (l =? 0)%Z then [] else [("limit", decZ l)]
       | None => []
       end)
      (match offset params with
       | Some o => if o =? "" then [] else [("offset", o)]
       | None => []
       end).





(** Sample runs used to evaluate the statements. *)

Definition offline : Upstream :=
  fun _ => Throw (ThrowError "TypeError" "fetch failed").

Definition answering (st : Z) (hs : Headers) (b : option JsVal) : Upstream :=
  fun _ => Ok {| status := st; respHeaders := hs; bodyJson := b |}.

Definition noMcp : McpServer -> Request -> Async Response :=
  fun _ _ => ret {| resStatus := 200; resHeaders := jsonHeaders; resBody := "{}" |}.

Definition tenant : TenantCredentials := {| accessToken := "0/abcdef" |}.

Definition anonymous : TenantCredentials := {| accessToken := "" |}.

End Spec.

Import Spec.

(* ========================================================================= *)
(** ** Shared lemmas                                                          *)
(* ========================================================================= *)

Lemma eqb_empty_false (s : string) : s <> "" -> (s =? "") = false.
Proof. intro H. now apply String.eqb_neq. Qed.

Lemma getAuthHeaders_empty (credentials : TenantCredentials) :
  accessToken credentials = "" -> getAuthHeaders credentials = Throw noTokenError.
Proof. unfold getAuthHeaders. now intros ->. Qed.

Lemma getAuthHeaders_token (credentials : TenantCredentials) :
  accessToken credentials <> "" ->
  getAuthHeaders credentials = Ok (authHeaders credentials).
Proof. unfold getAuthHeaders. intro H. now rewrite (eqb_empty_false _ H). Qed.

(** With an empty token neither request path reaches [fetch]. *)
Lemma request_no_token credentials endpoint options up :
  accessToken credentials = "" ->
  request credentials endpoint options up = ([], Throw noTokenError).
Proof.
  intro H. unfold request, bind, lift.
  now rewrite (getAuthHeaders_empty _ H).
Qed.

Lemma requestPaginated_no_token credentials endpoint params up :
  accessToken credentials = "" ->
  requestPaginated credentials endpoint params up = ([], Throw noTokenError).
Proof.
  intro H. unfold requestPaginated, bind, lift.
  now rewrite (getAuthHeaders_empty _ H).
Qed.

(** With a token, [request] issues exactly one call and settles its answer. *)
Lemma request_run credentials endpoint options up :
  accessToken credentials <> "" ->
  request credentials endpoint options up =
  ([outbound (authHeaders credentials) endpoint options],
   response <~ up (outbound (authHeaders credentials) endpoint options) ;;
   requestOutcome endpoint response).
Proof.
  intro H. unfold request, bind, lift, doFetch.
  rewrite (getAuthHeaders_token _ H). cbn.
  destruct (up _); reflexivity.
Qed.

Lemma requestPaginated_run credentials endpoint params up :
  accessToken credentials <> "" ->
  requestPaginated credentials endpoint params up =
  ([outboundPaginated (authHeaders credentials) endpoint params],
   response <~ up (outboundPaginated (authHeaders credentials) endpoint params) ;;
   paginatedOutcome response).
Proof.
  intro H. unfold requestPaginated, bind, lift, doFetch.
  rewrite (getAuthHeaders_token _ H). cbn.
  destruct (up _); reflexivity.
Qed.

(** A handler of the form [try { body } catch (error) { return f(error) }]
    never throws, and answers [f error] when its body throws [error]. *)
Lemma tryCatch_ret_total {A} (body : Async A) (f : Thrown -> A) up :
  exists r, outcome (tryCatch body (fun error => ret (f error)) up) = Ok r.
Proof.
  unfold tryCatch, outcome, ret. destruct (body up) as [tr [a | t]]; cbn; eauto.
Qed.

Lemma tryCatch_ret_caught {A} (body : Async A) (f : Thrown -> A) up t :
  outcome (body up) = Throw t ->
  tryCatch body (fun error => ret (f error)) up = (calls (body up), Ok (f t)).
Proof.
  unfold tryCatch, outcome, calls, ret.
  destruct (body up) as [tr [a | t']]; cbn; intro H; inversion H; subst.
  now rewrite app_nil_r.
Qed.

Lemma tryCatch_ret_passed {A} (body : Async A) (f : Thrown -> A) up a :
  outcome (body up) = Ok a ->
  tryCatch body (fun error => ret (f error)) up = (calls (body up), Ok a).
Proof.
  unfold tryCatch, outcome, calls.
  destruct (body up) as [tr [a' | t']]; cbn; intro H; inversion H; subst.
  reflexivity.
Qed.

(** The five answers of the entry point. *)
Lemma fetch_health E mcp (request : Request) up :
  pathname request = "/health" -> fetch E mcp request up = ([], Ok healthResponse).
Proof. intro H. unfold fetch. now rewrite H. Qed.

Lemma fetch_mcp_post E mcp (request : Request) up :
  pathname request = "/mcp" -> method request = "POST" ->
  fetch E mcp request up =
  match validateCredentials (parseTenantCredentials request) with
  | Throw error => ([], Ok (unauthorizedResponse E error))
  | Ok _ => mcp (createStatelessServer E (parseTenantCredentials request)) request up
  end.
Proof.
  intros Hp Hm. unfold fetch. rewrite Hp, Hm. cbn.
  destruct (validateCredentials _); reflexivity.
Qed.

Lemma fetch_sse E mcp (request : Request) up :
  pathname request = "/sse" -> fetch E mcp request up = ([], Ok sseResponse).
Proof. intro H. unfold fetch. now rewrite H. Qed.

Lemma fetch_default E mcp (request : Request) up :
  pathname request <> "/health" -> pathname request <> "/sse" ->
  (pathname request <> "/mcp" \/ method request <> "POST") ->
  fetch E mcp request up = ([], Ok defaultResponse).
Proof.
  intros Hh Hs Hm. unfold fetch.
  apply String.eqb_neq in Hh. apply String.eqb_neq in Hs. rewrite Hh, Hs.
  destruct Hm as [Hm | Hm]; apply String.eqb_neq in Hm; rewrite Hm;
    [ | rewrite andb_false_r ]; reflexivity.
Qed.

Lemma parse_missing_or_empty (request : Request) :
  headersGet (headers request) "X-Asana-Access-Token" = None \/
  headersGet (headers request) "X-Asana-Access-Token" = Some "" ->
  accessToken (parseTenantCredentials request) = "".
Proof. unfold parseTenantCredentials. now intros [-> | ->]. Qed.

Lemma parse_present (request : Request) tok :
  headersGet (headers request) "X-Asana-Access-Token" = Some tok -> tok <> "" ->
  parseTenantCredentials request = {| accessToken := tok |}.
Proof.
  unfold parseTenantCredentials. intros -> H. now rewrite (eqb_empty_false _ H).
Qed.

Lemma validate_empty credentials :
  accessToken credentials = "" ->
  validateCredentials credentials = Throw missingCredentials.
Proof. unfold validateCredentials. now intros ->. Qed.

Lemma validate_token credentials :
  accessToken credentials <> "" -> validateCredentials credentials = Ok tt.
Proof. unfold validateCredentials. intro H. now rewrite (eqb_empty_false _ H). Qed.

(* ========================================================================= *)
(** ** Transport: credentials and routing                                     *)
(* ========================================================================= *)

(** C1.  A POST to /mcp whose X-Asana-Access-Token header is missing or empty
    is answered with status 401 and the JSON body
    [{error, message, required_headers: ["X-Asana-Access-Token"]}]; the list of
    outbound calls of the request is empty, whatever the MCP handler and the
    remote side would do. *)
Theorem mcp_post_without_token_is_401 E mcp (request : Request) up :
  pathname request = "/mcp" ->
  method request = "POST" ->
  (headersGet (headers request) "X-Asana-Access-Token" = None \/
   headersGet (headers request) "X-Asana-Access-Token" = Some "") ->
  fetch E mcp request up =
  ([],
   Ok {| resStatus := 401;
         resHeaders := [("Content-Type", "application/json")];
         resBody :=
           orNull (stringify
             (VObj [("error", VStr "Unauthorized");
                    ("message",
                     VStr "Missing credentials. Provide X-Asana-Access-Token header with your Asana Personal Access Token.");
                    ("required_headers", VArr [VStr "X-Asana-Access-Token"])])) |}).
Proof.
  intros Hp Hm Htok.
  rewrite (fetch_mcp_post E mcp request up Hp Hm).
  rewrite (validate_empty _ (parse_missing_or_empty request Htok)).
  reflexivity.
Qed.

Lemma mcp_post_without_token_is_401_witness :
  fetch specErrors noMcp
    {| pathname := "/mcp"; method := "POST";
       headers := [("Content-Type", "application/json"); ("x-asana-access-token", "")];
       body := "{}" |} offline =
  ([],
   Ok {| resStatus := 401;
         resHeaders := [("Content-Type", "application/json")];
         resBody :=
           orNull (stringify
             (VObj [("error", VStr "Unauthorized");
                    ("message",
                     VStr "Missing credentials. Provide X-Asana-Access-Token header with your Asana Personal Access Token.");
                    ("required_headers", VArr [VStr "X-Asana-Access-Token"])])) |}).
Proof.
  apply mcp_post_without_token_is_401;
    [reflexivity | reflexivity | right; reflexivity].
Defined.

(** C9.  Routing of the entry point: /health gives the static
    [{status: "ok", server}] without looking at credentials; /sse gives 501
    for every method; /mcp goes to the MCP handler only under POST (and then
    only past the credential check); every other path, and /mcp under another
    method, gives the capability document. *)
Theorem fetch_routing E mcp (request : Request) up :
  (pathname request = "/health" ->
   fetch E mcp request up = ([], Ok healthResponse)) /\
  (pathname request = "/sse" ->
   fetch E mcp request up = ([], Ok sseResponse)) /\
  (pathname request = "/mcp" -> method request = "POST" ->
   accessToken (parseTenantCredentials request) <> "" ->
   fetch E mcp request up =
   mcp (createStatelessServer E (parseTenantCredentials request)) request up) /\
  (pathname request = "/mcp" -> method request <> "POST" ->
   fetch E mcp request up = ([], Ok defaultResponse)) /\
  (pathname request <> "/health" -> pathname request <> "/sse" ->
   pathname request <> "/mcp" ->
   fetch E mcp request up = ([], Ok defaultResponse)) /\
  healthResponse =
    {| resStatus := 200; resHeaders := [("Content-Type", "application/json")];
       resBody := orNull (stringify (VObj [("status", VStr "ok");
                                           ("server", VStr "primrose-mcp-asana")])) |} /\
  resStatus sseResponse = 501%Z /\
  defaultResponse =
    {| resStatus := 200; resHeaders := [("Content-Type", "application/json")];
       resBody := orNull (stringify capabilities) |} /\
  optProp capabilities "tools" = VArr toolNames /\
  (exists auth, optProp capabilities "authentication" = VObj auth) /\
  (exists eps, optProp capabilities "endpoints" = VObj eps).
Proof.
  repeat apply conj.
  - apply fetch_health.
  - apply fetch_sse.
  - intros Hp Hm Htok. rewrite (fetch_mcp_post E mcp request up Hp Hm).
    now rewrite (validate_token _ Htok).
  - intros Hp Hm. apply fetch_default; [rewrite Hp; discriminate .. | now right].
  - intros Hh Hs Hm. apply fetch_default; auto.
  - reflexivity.
  - reflexivity.
  - reflexivity.
  - reflexivity.
  - eexists; reflexivity.
  - eexists; reflexivity.
Qed.

Lemma fetch_routing_witness :
  fetch specErrors noMcp
    {| pathname := "/health"; method := "GET"; headers := []; body := "" |} offline
  = ([], Ok healthResponse) /\
  fetch specErrors noMcp
    {| pathname := "/sse"; method := "DELETE"; headers := []; body := "" |} offline
  = ([], Ok sseResponse) /\
  fetch specErrors noMcp
    {| pathname := "/mcp"; method := "GET"; headers := []; body := "" |} offline
  = ([], Ok defaultResponse) /\
  fetch specErrors noMcp
    {| pathname := "/"; method := "POST"; headers := []; body := "" |} offline
  = ([], Ok defaultResponse).
Proof.
  repeat apply conj.
  - destruct (fetch_routing specErrors noMcp
                {| pathname := "/health"; method := "GET"; headers := []; body := "" |}
                offline) as (H & _).
    apply H. reflexivity.
  - destruct (fetch_routing specErrors noMcp
                {| pathname := "/sse"; method := "DELETE"; headers := []; body := "" |}
                offline) as (_ & H & _).
    apply H. reflexivity.
  - destruct (fetch_routing specErrors noMcp
                {| pathname := "/mcp"; method := "GET"; headers := []; body := "" |}
                offline) as (_ & _ & _ & H & _).
    apply H; [reflexivity | discriminate].
  - destruct (fetch_routing specErrors noMcp
                {| pathname := "/"; method := "POST"; headers := []; body := "" |}
                offline) as (_ & _ & _ & _ & H & _).
    apply H; discriminate.
Defined.

(* ========================================================================= *)
(** ** Client: authentication before the network                              *)
(* ========================================================================= *)

(** What [testConnection] answers when the client holds no token. *)
Lemma testConnection_no_token E credentials up :
  accessToken credentials = "" ->
  testConnection E credentials up =
  ([], Ok (VObj [("connected", VBool false);
                 ("message",
                  VStr "No access token provided. Include X-Asana-Access-Token header.")])).
Proof.
  intro H. unfold testConnection, tryCatch, getMe, bind.
  rewrite (request_no_token _ _ _ up H). reflexivity.
Qed.

(** C10, as stated, fails on [testConnection]: with an empty token this
    operation of the client does not fail with an AuthenticationError; it
    catches the error and returns [{connected: false, message}]. *)
Lemma testConnection_without_token_returns :
  outcome (testConnection specErrors anonymous offline) =
    Ok (VObj [("connected", VBool false);
              ("message",
               VStr "No access token provided. Include X-Asana-Access-Token header.")])
  /\ outcome (testConnection specErrors anonymous offline) <> Throw noTokenError.
Proof. split; [reflexivity | discriminate]. Qed.

(** C10, amended.  With an empty access token both request paths throw the
    AuthenticationError of [getAuthHeaders] before any outbound call, for every
    endpoint, option and pagination parameter, and so do the resource methods
    that return what those paths return; [testConnection] catches that error
    and reports [{connected: false, message}], also without any outbound
    call. *)
Theorem empty_token_never_reaches_fetch credentials up :
  accessToken credentials = "" ->
  (forall endpoint options,
     request credentials endpoint options up = ([], Throw noTokenError)) /\
  (forall endpoint params,
     requestPaginated credentials endpoint params up = ([], Throw noTokenError)) /\
  getMe credentials up = ([], Throw noTokenError) /\
  (forall data, createTask credentials data up = ([], Throw noTokenError)) /\
  (forall gid optFields,
     getTask credentials gid optFields up = ([], Throw noTokenError)) /\
  (forall gid params,
     listProjectTasks credentials gid params up = ([], Throw noTokenError)) /\
  (forall E,
     testConnection E credentials up =
     ([], Ok (VObj [("connected", VBool false);
                    ("message",
                     VStr "No access token provided. Include X-Asana-Access-Token header.")]))) /\
  noTokenError =
    ThrowApi (AuthenticationError
                "No access token provided. Include X-Asana-Access-Token header.").
Proof.
  intro H. repeat apply conj; intros;
    try (apply request_no_token; exact H);
    try (apply requestPaginated_no_token; exact H).
  - now apply testConnection_no_token.
  - reflexivity.
Qed.

Lemma empty_token_never_reaches_fetch_witness :
  request anonymous "/tasks/12345" noInit (answering 200 [] None)
    = ([], Throw noTokenError) /\
  requestPaginated anonymous "/workspaces" noParams (answering 200 [] None)
    = ([], Throw noTokenError).
Proof.
  destruct (empty_token_never_reaches_fetch anonymous (answering 200 [] None)
              eq_refl) as (H1 & H2 & _).
  split; [apply H1 | apply H2].
Defined.

(* ========================================================================= *)
(** ** Client: classification of upstream failures                            *)
(* ========================================================================= *)

(** C2.  Where the code leaves the claim: a 429 whose Retry-After header is
    not an integer.  [Retry-After: 30] gives the hint 30 and a missing header
    gives 60, on both request paths; but a header such as ["soon"] goes through
    [parseInt] unchecked and the RateLimitError carries [NaN] rather than 60. *)
Theorem rate_limit_hint_runs :
  outcome (request tenant "/tasks/12345" noInit
             (answering 429 [("Retry-After", "30")] None))
    = Throw (ThrowApi (RateLimitError "Rate limit exceeded" (Num 30))) /\
  outcome (requestPaginated tenant "/workspaces" noParams
             (answering 429 [("retry-after", "30")] None))
    = Throw (ThrowApi (RateLimitError "Rate limit exceeded" (Num 30))) /\
  outcome (request tenant "/tasks/12345" noInit (answering 429 [] None))
    = Throw (ThrowApi (RateLimitError "Rate limit exceeded" (Num 60))) /\
  outcome (requestPaginated tenant "/workspaces" noParams (answering 429 [] None))
    = Throw (ThrowApi (RateLimitError "Rate limit exceeded" (Num 60))) /\
  outcome (request tenant "/tasks/12345" noInit
             (answering 429 [("Retry-After", "soon")] None))
    = Throw (ThrowApi (RateLimitError "Rate limit exceeded" NaN)) /\
  outcome (requestPaginated tenant "/workspaces" noParams
             (answering 429 [("Retry-After", "soon")] None))
    = Throw (ThrowApi (RateLimitError "Rate limit exceeded" NaN)).
Proof. repeat apply conj; reflexivity. Qed.

(** C3.  Where the code leaves the claim: a 404 on the paginated path.  The
    single-resource path throws [NotFoundError('Resource', endpoint)]; the
    paginated path has no 404 case, so the same response becomes a generic
    API error with status 404 whose message does not name the path, and that
    is what the list tool's error envelope shows. *)
Theorem not_found_runs :
  outcome (request tenant "/tasks/12345" noInit (answering 404 [] None))
    = Throw (ThrowApi (NotFoundError "Resource" "/tasks/12345")) /\
  outcome (requestPaginated tenant "/projects/77/tasks" noParams
             (answering 404 [] None))
    = Throw (ThrowApi (ApiError "Asana API error: 404" 404)) /\
  ListProjectTasks.handler specErrors tenant
    {| ListProjectTasks.projectGid := "77"; ListProjectTasks.limit := None;
       ListProjectTasks.offset := None; ListProjectTasks.format := FormatJson |}
    (answering 404 [] None)
    = ([outboundPaginated (authHeaders tenant) "/projects/77/tasks" noParams],
       Ok {| content :=
               [{| type := "text";
                   text := stringify2
                     (VObj [("error", VStr "Error: Asana API error: 404");
                            ("details",
                             VObj [("message", VStr "Asana API error: 404")])]) |}];
             isError := Some true |}) /\
  GetTask.handler specErrors tenant
    {| GetTask.taskGid := "12345"; GetTask.optFields := None;
       GetTask.format := FormatJson |}
    (answering 404 [] None)
    = ([outbound (authHeaders tenant) "/tasks/12345" noInit],
       Ok {| content :=
               [{| type := "text";
                   text := stringify2
                     (VObj [("error", VStr "Error: Resource not found: /tasks/12345");
                            ("details",
                             VObj [("message",
                                    VStr "Resource not found: /tasks/12345")])]) |}];
             isError := Some true |}).
Proof. repeat apply conj; reflexivity. Qed.

(* ========================================================================= *)
(** ** Client: successful answers                                             *)
(* ========================================================================= *)

(** The outcome of [request] on a success status other than 204. *)
Lemma requestOutcome_success endpoint response :
  (200 <= status response <= 299)%Z -> status response <> 204%Z ->
  requestOutcome endpoint response =
  (json <~ responseJson response ;; readProp json "data").
Proof.
  intros Hok H204. unfold requestOutcome, ok.
  replace (status response =? 429)%Z with false by (symmetry; apply Z.eqb_neq; lia).
  replace (status response =? 401)%Z with false by (symmetry; apply Z.eqb_neq; lia).
  replace (status response =? 403)%Z with false by (symmetry; apply Z.eqb_neq; lia).
  replace (status response =? 404)%Z with false by (symmetry; apply Z.eqb_neq; lia).
  replace (status response =? 204)%Z with false by (symmetry; apply Z.eqb_neq; lia).
  replace (200 <=? status response)%Z with true by (symmetry; apply Z.leb_le; lia).
  replace (status response <=? 299)%Z with true by (symmetry; apply Z.leb_le; lia).
  reflexivity.
Qed.

Lemma requestOutcome_204 endpoint response :
  status response = 204%Z -> requestOutcome endpoint response = Ok VUndefined.
Proof. intro H. unfold requestOutcome, ok. rewrite H. reflexivity. Qed.

(** C4.  On the single-resource path, a 2xx answer (other than 204) whose body
    is the envelope [{data: inner}] yields exactly [inner], so the tool's JSON
    mode prints [JSON.stringify(inner, null, 2)]; a 204 answer yields the empty
    result [undefined].  One outbound call is made in either case. *)
Theorem request_unwraps_data_envelope credentials endpoint options up response :
  accessToken credentials <> "" ->
  up (outbound (authHeaders credentials) endpoint options) = Ok response ->
  (forall fields inner,
     (200 <= status response <= 299)%Z -> status response <> 204%Z ->
     bodyJson response = Some (VObj fields) ->
     lookup "data" fields = Some inner ->
     request credentials endpoint options up =
       ([outbound (authHeaders credentials) endpoint options], Ok inner) /\
     (forall entityType,
        formatResponse inner FormatJson entityType =
        Ok {| content := [{| type := "text"; text := stringify2 inner |}];
              isError := None |}) /\
     (forall E a,
        endpoint = getTaskEndpoint (GetTask.taskGid a) (GetTask.optFields a) ->
        options = noInit ->
        GetTask.format a = FormatJson ->
        GetTask.handler E credentials a up =
        ([outbound (authHeaders credentials) endpoint options],
         Ok {| content := [{| type := "text"; text := stringify2 inner |}];
               isError := None |}))) /\
  (status response = 204%Z ->
   request credentials endpoint options up =
     ([outbound (authHeaders credentials) endpoint options], Ok VUndefined)).
Proof.
  intros Htok Hup. split.
  - intros fields inner Hok H204 Hbody Hdata.
    assert (Hreq : request credentials endpoint options up =
                   ([outbound (authHeaders credentials) endpoint options], Ok inner)).
    { rewrite (request_run _ _ _ up Htok), Hup. cbn.
      rewrite (requestOutcome_success _ _ Hok H204).
      unfold responseJson. rewrite Hbody. cbn.
      unfold readProp, getProp. now rewrite Hdata. }
    repeat apply conj.
    + exact Hreq.
    + reflexivity.
    + intros E a -> -> Hfmt.
      unfold GetTask.handler.
      assert (Hbody' : GetTask.body credentials a up =
                ([outbound (authHeaders credentials)
                    (getTaskEndpoint (GetTask.taskGid a) (GetTask.optFields a)) noInit],
                 Ok (textResponse (stringify2 inner)))).
      { unfold GetTask.body, getTask, bind. rewrite Hreq, Hfmt. reflexivity. }
      rewrite (tryCatch_ret_passed _ _ up (textResponse (stringify2 inner)));
        rewrite Hbody'; reflexivity.
  - intro H204. rewrite (request_run _ _ _ up Htok), Hup. cbn.
    now rewrite (requestOutcome_204 _ _ H204).
Qed.

Lemma request_unwraps_data_envelope_witness :
  request tenant "/tasks/12345" noInit
    (answering 200 [] (Some (VObj [("data", VObj [("gid", VStr "12345");
                                                   ("name", VStr "Ship spec")])])))
  = ([outbound (authHeaders tenant) "/tasks/12345" noInit],
     Ok (VObj [("gid", VStr "12345"); ("name", VStr "Ship spec")])) /\
  request tenant "/tasks/12345" {| initMethod := Some "DELETE"; initBody := None;
                                   initHeaders := None |}
    (answering 204 [] None)
  = ([outbound (authHeaders tenant) "/tasks/12345"
        {| initMethod := Some "DELETE"; initBody := None; initHeaders := None |}],
     Ok VUndefined).
Proof.
  split.
  - refine (proj1 (proj1 (request_unwraps_data_envelope tenant "/tasks/12345" noInit
                     (answering 200 [] (Some (VObj [("data", VObj [("gid", VStr "12345");
                                                   ("name", VStr "Ship spec")])])))
                     _ _ _) _ _ _ _ _ _)).
    + discriminate.
    + reflexivity.
    + cbn; lia.
    + discriminate.
    + reflexivity.
    + reflexivity.
  - refine (proj2 (request_unwraps_data_envelope tenant "/tasks/12345" _
                     (answering 204 [] None) _ _ _) _).
    + discriminate.
    + reflexivity.
    + reflexivity.
Defined.

(** C8.  [asana_create_task] called with a name and a workspace and nothing
    else issues exactly one request, [POST /tasks], whose body is the JSON text
    of [{data: {name, workspace}}] and of no other key; when the answer is 201
    with [{data: task}] the tool returns the JSON text of
    [{success: true, message: "Task created", task}], not flagged as an
    error. *)
Theorem create_task_end_to_end E credentials up name workspace hs task :
  accessToken credentials <> "" ->
  up {| url := "https://app.asana.com/api/1.0/tasks";
        fetchMethod := Some "POST";
        fetchHeaders := authHeaders credentials;
        fetchBody :=
          stringify (VObj [("data", VObj [("name", VStr name);
                                          ("workspace", VStr workspace)])]) |}
  = Ok {| status := 201; respHeaders := hs;
          bodyJson := Some (VObj [("data", task)]) |} ->
  CreateTask.handler E credentials
    {| CreateTask.name := name; CreateTask.workspace := Some workspace;
       CreateTask.projects := None; CreateTask.assignee := None;
       CreateTask.dueOn := None; CreateTask.dueAt := None;
       CreateTask.startOn := None; CreateTask.notes := None;
       CreateTask.htmlNotes := None; CreateTask.completed := None;
       CreateTask.tags := None; CreateTask.parent := None;
       CreateTask.resourceSubtype := None |} up
  = ([{| url := "https://app.asana.com/api/1.0/tasks";
         fetchMethod := Some "POST";
         fetchHeaders := authHeaders credentials;
         fetchBody :=
           stringify (VObj [("data", VObj [("name", VStr name);
                                           ("workspace", VStr workspace)])]) |}],
     Ok {| content :=
             [{| type := "text";
                 text := stringify2 (VObj [("success", VBool true);
                                           ("message", VStr "Task created");
                                           ("task", task)]) |}];
           isError := None |}).
Proof.
  intros Htok Hup.
  unfold CreateTask.handler.
  match goal with |- tryCatch ?b _ _ = _ => set (bodyRun := b) end.
  assert (Hbody : bodyRun up =
    ([{| url := "https://app.asana.com/api/1.0/tasks";
         fetchMethod := Some "POST";
         fetchHeaders := authHeaders credentials;
         fetchBody :=
           stringify (VObj [("data", VObj [("name", VStr name);
                                           ("workspace", VStr workspace)])]) |}],
     Ok (textResponse (stringify2 (VObj [("success", VBool true);
                                         ("message", VStr "Task created");
                                         ("task", task)]))))).
  { unfold bodyRun, CreateTask.body, createTask, bind.
    rewrite (request_run _ _ _ up Htok).
    change (outbound (authHeaders credentials) "/tasks" _)
      with {| url := "https://app.asana.com/api/1.0/tasks";
              fetchMethod := Some "POST";
              fetchHeaders := authHeaders credentials;
              fetchBody :=
                stringify (VObj [("data", VObj [("name", VStr name);
                                                ("workspace", VStr workspace)])]) |}.
    rewrite Hup. reflexivity. }
  rewrite (tryCatch_ret_passed _ _ up _ (f_equal snd Hbody)).
  rewrite Hbody. reflexivity.
Qed.

Lemma create_task_end_to_end_witness :
  CreateTask.handler specErrors tenant
    {| CreateTask.name := "Ship spec"; CreateTask.workspace := Some "999";
       CreateTask.projects := None; CreateTask.assignee := None;
       CreateTask.dueOn := None; CreateTask.dueAt := None;
       CreateTask.startOn := None; CreateTask.notes := None;
       CreateTask.htmlNotes := None; CreateTask.completed := None;
       CreateTask.tags := None; CreateTask.parent := None;
       CreateTask.resourceSubtype := None |}
    (answering 201 []
       (Some (VObj [("data", VObj [("gid", VStr "1"); ("name", VStr "Ship spec");
                                   ("resource_type", VStr "task")])])))
  = ([{| url := "https://app.asana.com/api/1.0/tasks";
         fetchMethod := Some "POST";
         fetchHeaders := authHeaders tenant;
         fetchBody :=
           stringify (VObj [("data", VObj [("name", VStr "Ship spec");
                                           ("workspace", VStr "999")])]) |}],
     Ok {| content :=
             [{| type := "text";
                 text := stringify2
                   (VObj [("success", VBool true);
                          ("message", VStr "Task created");
                          ("task", VObj [("gid", VStr "1");
                                         ("name", VStr "Ship spec");
                                         ("resource_type", VStr "task")])]) |}];
           isError := None |}).
Proof.
  apply (create_task_end_to_end specErrors tenant _ "Ship spec" "999" []);
    [discriminate | reflexivity].
Defined.

(* ========================================================================= *)
(** ** Formatter: tables                                                      *)
(* ========================================================================= *)

Lemma append_assoc (a b c : string) : (a ++ b) ++ c = a ++ (b ++ c).
Proof. induction a as [| x a IH]; cbn; [reflexivity | now rewrite IH]. Qed.

(** A loop whose step succeeds on every item pushes one element per item. *)
Lemma mapM_map {A B} (f : A -> Result B) (g : A -> B) (P : A -> Prop) l :
  (forall x, P x -> f x = Ok (g x)) -> Forall P l -> mapM f l = Ok (map g l).
Proof.
  intros Hf Hl. induction Hl as [| x l Hx Hl IH]; cbn.
  - reflexivity.
  - rewrite (Hf x Hx). cbn. rewrite IH. reflexivity.
Qed.

Lemma mapM_defined {A B} (f : A -> Result B) (P : A -> Prop) l :
  (forall x, P x -> exists y, f x = Ok y) -> Forall P l ->
  exists ys, mapM f l = Ok ys.
Proof.
  intros Hf Hl. induction Hl as [| x l Hx Hl [ys IH]]; cbn.
  - eauto.
  - destruct (Hf x Hx) as [y Hy]. rewrite Hy. cbn. rewrite IH. cbn. eauto.
Qed.

Lemma table_defined header separator row items :
  (forall x, isObject x -> exists y, row x = Ok y) -> Forall isObject items ->
  exists tbl, table header separator row items = Ok tbl.
Proof.
  intros Hrow Hitems. unfold table.
  destruct (mapM_defined row isObject items Hrow Hitems) as [rows Hrows].
  rewrite Hrows. cbn. eauto.
Qed.

Ltac object_row :=
  let x := fresh "x" in
  let H := fresh "H" in
  intros x H; destruct x; try contradiction; eexists; reflexivity.

Lemma row_of_five_cells (a b c d e : string) :
  "| " ++ join " | " [a; b; c; d; e] ++ " |" =
  "| " ++ a ++ " | " ++ b ++ " | " ++ c ++ " | " ++ d ++ " | " ++ e ++ " |".
Proof. cbn. repeat (rewrite append_assoc; cbn). reflexivity. Qed.

Lemma taskRow_object task : isObject task -> taskRow task = Ok (taskLine task).
Proof.
  destruct task; try contradiction. intros _.
  unfold taskLine, taskCells. rewrite row_of_five_cells. reflexivity.
Qed.

Lemma formatTasksTable_objects tasks :
  Forall isObject tasks ->
  formatTasksTable tasks =
  Ok (join nl ("| GID | Name | Assignee | Due | Completed |" ::
               "|---|---|---|---|---|" :: map taskLine tasks)).
Proof.
  intro H. unfold formatTasksTable, table.
  rewrite (mapM_map taskRow taskLine isObject tasks taskRow_object H).
  reflexivity.
Qed.

Lemma formatGenericTable_defined items :
  Forall isObject items -> exists tbl, formatGenericTable items = Ok tbl.
Proof.
  intro H. unfold formatGenericTable.
  destruct items as [| first rest]; [eauto |].
  assert (Hfirst : isObject first) by now inversion H.
  destruct first; try contradiction. cbn [objectKeys].
  match goal with |- context [mapM ?f (VObj fields :: rest)] =>
    destruct (mapM_defined f isObject (VObj fields :: rest)) as [rows Hrows];
      [ | exact H | rewrite Hrows; cbn; eauto ]
  end.
  intros x Hx. destruct x; try contradiction.
  match goal with |- context [mapM ?g ?ks] =>
    destruct (mapM_defined g (fun _ => True) ks) as [vals Hvals];
      [ | apply Forall_forall; auto | rewrite Hvals; cbn; eauto ]
  end.
  intros k _. cbn. eauto.
Qed.

(** Every table of the entity-type switch is defined on a list of objects. *)
Lemma entity_table_defined entityType items :
  Forall isObject items ->
  exists tbl,
    (if entityType =? "tasks" then formatTasksTable items
     else if entityType =? "projects" then formatProjectsTable items
     else if entityType =? "workspaces" then formatWorkspacesTable items
     else if entityType =? "teams" then formatTeamsTable items
     else if entityType =? "users" then formatUsersTable items
     else if entityType =? "tags" then formatTagsTable items
     else if entityType =? "sections" then formatSectionsTable items
     else if entityType =? "stories" then formatStoriesTable items
     else if entityType =? "portfolios" then formatPortfoliosTable items
     else if entityType =? "goals" then formatGoalsTable items
     else if entityType =? "webhooks" then formatWebhooksTable items
     else formatGenericTable items) = Ok tbl.
Proof.
  intro H.
  repeat match goal with
         | |- context [if ?c then _ else _] => destruct c
         end;
    try (apply table_defined; [object_row | exact H]).
  now apply formatGenericTable_defined.
Qed.

(** The Markdown rendering of a page of objects: the lines above the table,
    with the offset line exactly when [nextPage] is truthy, then one block. *)
Lemma formatPaginated_objects items nextPage entityType :
  Forall isObject items ->
  exists block,
    formatPaginatedAsMarkdown (VObj [("data", VArr items); ("nextPage", nextPage)])
      entityType =
    Ok (join nl
          (app (pageLines entityType (List.length items)
                  (if truthy nextPage then Some (toStr (optProp nextPage "offset"))
                   else None))
               [block])) /\
    (items = [] -> block = "_No items found._") /\
    (items <> [] -> entityType = "tasks" ->
     block = join nl ("| GID | Name | Assignee | Due | Completed |" ::
                      "|---|---|---|---|---|" :: map taskLine items)).
Proof.
  intro H. unfold formatPaginatedAsMarkdown.
  change (getProp (VObj [("data", VArr items); ("nextPage", nextPage)]) "data")
    with (Some (VArr items)).
  change (optProp (VObj [("data", VArr items); ("nextPage", nextPage)]) "nextPage")
    with nextPage.
  destruct items as [| item rest].
  - exists "_No items found._". repeat apply conj.
    + destruct (truthy nextPage); reflexivity.
    + reflexivity.
    + intro C; now contradiction C.
  - destruct (entity_table_defined entityType (item :: rest) H) as [tbl Htbl].
    exists tbl. repeat apply conj.
    + rewrite Htbl. destruct (truthy nextPage); reflexivity.
    + discriminate.
    + intros _ ->. cbn in Htbl.
      rewrite (formatTasksTable_objects _ H) in Htbl. now inversion Htbl.
Qed.

(** Splitting a joined text gives the lines back when no line has a break. *)
Lemma includesChar_app c a b :
  includesChar c (a ++ b) = (includesChar c a || includesChar c b)%bool.
Proof.
  induction a as [| x a IH]; cbn; [reflexivity |].
  now rewrite IH, orb_assoc.
Qed.

Lemma splitOn_clean c l : includesChar c l = false -> splitOn c l = [l].
Proof.
  induction l as [| x l IH]; cbn; [reflexivity |].
  intro H. apply orb_false_iff in H. destruct H as [Hx Hl].
  rewrite Hx, (IH Hl). reflexivity.
Qed.

Lemma splitOn_app_sep c l rest :
  includesChar c l = false ->
  splitOn c (l ++ String c rest) = l :: splitOn c rest.
Proof.
  induction l as [| x l IH]; cbn.
  - intros _. now rewrite Ascii.eqb_refl.
  - intro H. apply orb_false_iff in H. destruct H as [Hx Hl].
    rewrite Hx, (IH Hl). reflexivity.
Qed.

Lemma splitOn_join c ls :
  ls <> [] ->
  Forall (fun l => includesChar c l = false) ls ->
  splitOn c (join (String c "") ls) = ls.
Proof.
  intros Hne Hls. induction Hls as [| l ls Hl Hls IH]; [contradiction |].
  destruct ls as [| l' ls'].
  - cbn. now apply splitOn_clean.
  - change (join (String c "") (l :: l' :: ls'))
      with (l ++ String c (join (String c "") (l' :: ls'))).
    rewrite (splitOn_app_sep c l _ Hl), IH; [reflexivity | discriminate].
Qed.

Lemma join_singleLine sep cells :
  singleLine sep -> Forall singleLine cells -> singleLine (join sep cells).
Proof.
  unfold singleLine. intros Hsep Hcells.
  induction Hcells as [| x l Hx Hl IH]; [reflexivity |].
  destruct l as [| y l']; [exact Hx |].
  change (join sep (x :: y :: l')) with (x ++ sep ++ join sep (y :: l')).
  now rewrite !includesChar_app, Hx, Hsep, IH.
Qed.

Lemma taskLine_singleLine task :
  Forall singleLine (taskCells task) -> singleLine (taskLine task).
Proof.
  intro H. unfold taskLine, singleLine.
  rewrite !includesChar_app.
  rewrite (join_singleLine " | " _ eq_refl H). reflexivity.
Qed.

(** C6.  On a list of task objects the Markdown table is the header, the
    separator and exactly one row per task, in the order of the list; a task
    whose assignee is missing shows ["-"] in the Assignee cell, and a task with
    neither [due_on] nor [due_at] shows ["-"] in the Due cell.  The paginated
    rendering of a non-empty task list ends with that table.  When no cell
    holds a line break, the lines of the text are those rows: two more lines
    than tasks. *)
Theorem tasks_table_one_row_per_task tasks :
  Forall isObject tasks ->
  formatTasksTable tasks =
    Ok (join nl ("| GID | Name | Assignee | Due | Completed |" ::
                 "|---|---|---|---|---|" :: map taskLine tasks)) /\
  List.length (map taskLine tasks) = List.length tasks /\
  (forall i task,
     nth_error tasks i = Some task ->
     nth_error (map taskLine tasks) i = Some (taskLine task)) /\
  (forall task,
     nullish (optProp task "assignee") = true ->
     nth 2 (taskCells task) "" = "-") /\
  (forall task,
     nullish (optProp task "due_on") = true ->
     nullish (optProp task "due_at") = true ->
     nth 3 (taskCells task) "" = "-") /\
  (tasks <> [] ->
   forall nextPage,
     formatPaginatedAsMarkdown (VObj [("data", VArr tasks); ("nextPage", nextPage)])
       "tasks" =
     Ok (join nl
           (app (pageLines "tasks" (List.length tasks)
                   (if truthy nextPage then Some (toStr (optProp nextPage "offset"))
                    else None))
                [join nl ("| GID | Name | Assignee | Due | Completed |" ::
                          "|---|---|---|---|---|" :: map taskLine tasks)]))) /\
  (Forall (fun task => Forall singleLine (taskCells task)) tasks ->
   exists out,
     formatTasksTable tasks = Ok out /\
     splitOn newline out =
       "| GID | Name | Assignee | Due | Completed |" ::
       "|---|---|---|---|---|" :: map taskLine tasks /\
     List.length (splitOn newline out) = 2 + List.length tasks).
Proof.
  intro H. repeat apply conj.
  - now apply formatTasksTable_objects.
  - apply length_map.
  - intros i task Hi. now apply map_nth_error.
  - intros task Hn. cbn.
    destruct (optProp task "assignee"); try discriminate; reflexivity.
  - intros task Hon Hat. cbn.
    destruct (optProp task "due_on"); try discriminate;
      destruct (optProp task "due_at"); try discriminate; reflexivity.
  - intros Hne nextPage.
    destruct (formatPaginated_objects tasks nextPage "tasks" H)
      as (block & Hrun & _ & Hblock).
    rewrite Hrun, (Hblock Hne eq_refl). reflexivity.
  - intro Hcells. eexists. split; [now apply formatTasksTable_objects |].
    assert (Hsplit : splitOn newline
              (join nl ("| GID | Name | Assignee | Due | Completed |" ::
                        "|---|---|---|---|---|" :: map taskLine tasks)) =
              "| GID | Name | Assignee | Due | Completed |" ::
              "|---|---|---|---|---|" :: map taskLine tasks).
    { apply splitOn_join; [discriminate |].
      repeat constructor. apply Forall_map.
      eapply Forall_impl; [| exact Hcells]. apply taskLine_singleLine. }
    split; [exact Hsplit |]. rewrite Hsplit. cbn. now rewrite length_map.
Qed.

Lemma tasks_table_one_row_per_task_witness :
  formatTasksTable
    [VObj [("gid", VStr "1"); ("name", VStr "Ship spec")];
     VObj [("gid", VStr "2"); ("name", VStr "Review"); ("assignee", VNull);
           ("due_at", VStr "2026-01-05T10:00:00.000Z"); ("completed", VBool true)]]
  = Ok (join nl ["| GID | Name | Assignee | Due | Completed |";
                 "|---|---|---|---|---|";
                 "| 1 | Ship spec | - | - | No |";
                 "| 2 | Review | - | 2026-01-05T10:00:00.000Z | Yes |"]).
Proof.
  refine (proj1 (tasks_table_one_row_per_task _ _)).
  repeat constructor.
Defined.

(* ========================================================================= *)
(** ** Pagination                                                             *)
(* ========================================================================= *)

Lemma paginatedOutcome_success response :
  (200 <= status response <= 299)%Z ->
  paginatedOutcome response =
  (json <~ responseJson response ;;
   data <~ readProp json "data" ;;
   next_page <~ readProp json "next_page" ;;
   Ok (VObj [("data", data); ("nextPage", next_page)])).
Proof.
  intros Hok. unfold paginatedOutcome, ok.
  replace (status response =? 429)%Z with false by (symmetry; apply Z.eqb_neq; lia).
  replace (status response =? 401)%Z with false by (symmetry; apply Z.eqb_neq; lia).
  replace (status response =? 403)%Z with false by (symmetry; apply Z.eqb_neq; lia).
  replace (200 <=? status response)%Z with true by (symmetry; apply Z.leb_le; lia).
  replace (status response <=? 299)%Z with true by (symmetry; apply Z.leb_le; lia).
  reflexivity.
Qed.

(** C5.  On the paginated path, a 2xx answer [{data: items, next_page}] is
    returned as [{data: items, nextPage: next_page}] with [next_page] passed
    through untouched: when it carries [offset: o] the descriptor of the result
    has that same offset and the Markdown rendering prints
    [**More available:** Yes (offset: `o`)]; when the answer has no
    [next_page] the result's [nextPage] is [undefined], its JSON text has no
    such key and the Markdown rendering has no "More available" line. *)
Theorem pagination_descriptor_passthrough credentials endpoint params up
    response fields items :
  accessToken credentials <> "" ->
  up (outboundPaginated (authHeaders credentials) endpoint params) = Ok response ->
  (200 <= status response <= 299)%Z ->
  bodyJson response = Some (VObj fields) ->
  lookup "data" fields = Some (VArr items) ->
  (forall next_page o,
     lookup "next_page" fields = Some next_page ->
     optProp next_page "offset" = VStr o ->
     requestPaginated credentials endpoint params up =
       ([outboundPaginated (authHeaders credentials) endpoint params],
        Ok (VObj [("data", VArr items); ("nextPage", next_page)])) /\
     optProp (optProp (VObj [("data", VArr items); ("nextPage", next_page)])
                "nextPage") "offset" = VStr o /\
     (Forall isObject items ->
      forall entityType, exists block,
        formatPaginatedAsMarkdown
          (VObj [("data", VArr items); ("nextPage", next_page)]) entityType =
        Ok (join nl [("## " ++ capitalize entityType); "";
                     ("**Showing:** " ++ decZ (Z.of_nat (List.length items)) ++ " items");
                     ("**More available:** Yes (offset: `" ++ o ++ "`)"); "";
                     block]))) /\
  (lookup "next_page" fields = None ->
   requestPaginated credentials endpoint params up =
     ([outboundPaginated (authHeaders credentials) endpoint params],
      Ok (VObj [("data", VArr items); ("nextPage", VUndefined)])) /\
   optProp (VObj [("data", VArr items); ("nextPage", VUndefined)]) "nextPage"
     = VUndefined /\
   stringify2 (VObj [("data", VArr items); ("nextPage", VUndefined)]) =
     stringify2 (VObj [("data", VArr items)]) /\
   (Forall isObject items ->
    forall entityType, exists block,
      formatPaginatedAsMarkdown
        (VObj [("data", VArr items); ("nextPage", VUndefined)]) entityType =
      Ok (join nl [("## " ++ capitalize entityType); "";
                   ("**Showing:** " ++ decZ (Z.of_nat (List.length items)) ++ " items");
                   ""; block]))).
Proof.
  intros Htok Hup Hok Hbody Hdata.
  assert (Hrun : forall np,
            match lookup "next_page" fields with Some x => x | None => VUndefined end = np ->
            requestPaginated credentials endpoint params up =
            ([outboundPaginated (authHeaders credentials) endpoint params],
             Ok (VObj [("data", VArr items); ("nextPage", np)]))).
  { intros np Hnp. rewrite (requestPaginated_run _ _ _ up Htok), Hup. cbn.
    rewrite (paginatedOutcome_success _ Hok). unfold responseJson.
    rewrite Hbody. cbn. unfold readProp, getProp. rewrite Hdata, Hnp. reflexivity. }
  split.
  - intros next_page o Hnp Hoff. repeat apply conj.
    + apply Hrun. now rewrite Hnp.
    + exact Hoff.
    + intros Hobj entityType.
      destruct (formatPaginated_objects items next_page entityType Hobj)
        as (block & Hfmt & _).
      exists block. rewrite Hfmt, Hoff.
      assert (Ht : truthy next_page = true).
      { destruct next_page; try discriminate; reflexivity. }
      rewrite Ht. reflexivity.
  - intros Hnone. repeat apply conj.
    + apply Hrun. now rewrite Hnone.
    + reflexivity.
    + reflexivity.
    + intros Hobj entityType.
      destruct (formatPaginated_objects items VUndefined entityType Hobj)
        as (block & Hfmt & _).
      exists block. rewrite Hfmt. reflexivity.
Qed.

Lemma pagination_descriptor_passthrough_witness :
  requestPaginated tenant "/projects/77/tasks" noParams
    (answering 200 []
       (Some (VObj [("data", VArr [VObj [("gid", VStr "1"); ("name", VStr "Ship spec")]]);
                    ("next_page",
                     VObj [("offset", VStr "abc");
                           ("path", VStr "/projects/77/tasks?offset=abc");
                           ("uri", VStr "https://app.asana.com/api/1.0/projects/77/tasks?offset=abc")])])))
  = ([outboundPaginated (authHeaders tenant) "/projects/77/tasks" noParams],
     Ok (VObj [("data", VArr [VObj [("gid", VStr "1"); ("name", VStr "Ship spec")]]);
               ("nextPage",
                VObj [("offset", VStr "abc");
                      ("path", VStr "/projects/77/tasks?offset=abc");
                      ("uri", VStr "https://app.asana.com/api/1.0/projects/77/tasks?offset=abc")])]))
  /\
  requestPaginated tenant "/projects/77/tasks" noParams
    (answering 200 [] (Some (VObj [("data", VArr [])])))
  = ([outboundPaginated (authHeaders tenant) "/projects/77/tasks" noParams],
     Ok (VObj [("data", VArr []); ("nextPage", VUndefined)])).
Proof.
  split.
  - refine (proj1 (proj1 (pagination_descriptor_passthrough tenant
                     "/projects/77/tasks" noParams _ _ _ _ _ _ _ _ _) _ "abc" _ _)).
    + discriminate.
    + reflexivity.
    + cbn; lia.
    + reflexivity.
    + reflexivity.
    + reflexivity.
    + reflexivity.
  - refine (proj1 (proj2 (pagination_descriptor_passthrough tenant
                     "/projects/77/tasks" noParams _ _ _ _ _ _ _ _ _) _)).
    + discriminate.
    + reflexivity.
    + cbn; lia.
    + reflexivity.
    + reflexivity.
    + reflexivity.
Defined.

(* ========================================================================= *)
(** ** Tool boundary: errors                                                  *)
(* ========================================================================= *)

(** C7, as stated, fails: an authentication error is a classified API error,
    yet the envelope's message carries no retryability annotation, because
    [formatError] appends it only under [error.retryable]; and an error raised
    under [asana_test_connection] is caught inside the client, so that tool
    answers [{connected: false, message}] with no error flag. *)
Lemma classified_error_without_annotation :
  GetTask.handler specErrors tenant
    {| GetTask.taskGid := "12345"; GetTask.optFields := None;
       GetTask.format := FormatJson |}
    (answering 401 [] None)
  = ([outbound (authHeaders tenant) "/tasks/12345" noInit],
     Ok {| content :=
             [{| type := "text";
                 text := stringify2
                   (VObj [("error",
                           VStr "Error: Authentication failed. Check your Asana access token.");
                          ("details",
                           VObj [("message",
                                  VStr "Authentication failed. Check your Asana access token.")])]) |}];
           isError := Some true |})
  /\
  outcome (getTask tenant "12345" None (answering 401 [] None))
  = Throw (ThrowApi (AuthenticationError
                       "Authentication failed. Check your Asana access token."))
  /\
  TestConnection.handler specErrors tenant (answering 429 [] None)
  = ([outbound (authHeaders tenant) "/users/me" noInit],
     Ok {| content :=
             [{| type := "text";
                 text := stringify2
                   (VObj [("connected", VBool false);
                          ("message", VStr "Rate limit exceeded")]) |}];
           isError := None |}).
Proof. repeat apply conj; reflexivity. Qed.

Lemma testConnection_total E credentials up :
  exists r, outcome (testConnection E credentials up) = Ok r.
Proof. unfold testConnection. apply tryCatch_ret_total. Qed.

Lemma testConnection_caught E credentials up t :
  outcome (getMe credentials up) = Throw t ->
  testConnection E credentials up =
  (calls (getMe credentials up),
   Ok (VObj [("connected", VBool false);
             ("message", VStr (messageOr E t "Connection failed"))])).
Proof.
  intro H. unfold testConnection.
  match goal with |- tryCatch ?b _ _ = _ => set (bodyRun := b) end.
  assert (Hb : bodyRun up = (calls (getMe credentials up), Throw t)).
  { unfold bodyRun, bind, outcome, calls in *.
    destruct (getMe credentials up) as [tr [a | t']]; cbn in *; congruence. }
  rewrite (tryCatch_ret_caught bodyRun _ up t (f_equal snd Hb)).
  now rewrite Hb.
Qed.

(** C7, amended.  No tool handler lets an exception out.  When the [try]
    block of a handler that catches with [formatError] throws (every handler
    of the tools modules has that form, whatever its [try] block), the handler
    returns the envelope: a text that is the JSON object
    [{error: message, details}] and [isError: true].  The message is
    ["Error: "] and the error's message, followed by [" (retryable)"] exactly
    when the error is an [AsanaApiError] whose [retryable] flag is set, which
    a rate-limit error has and an authentication error has not.
    [client.testConnection] catches its own errors, so [asana_test_connection]
    reports them as [{connected: false, message}] without the error flag.  In
    the entry point, the only failure status produced from a caught error is
    the 401 of the credential check: a request is handed to the MCP handler,
    or answered with a static 200 or 501, or it is a POST to /mcp without
    token and answered 401. *)
Theorem tool_errors_become_envelopes E credentials up :
  (forall call,
     exists r, outcome (callTool (createStatelessServer E credentials) call up) = Ok r) /\
  (forall tryBlock : Async ToolResponse,
     (exists r,
        outcome (tryCatch tryBlock (fun error => ret (formatError E error)) up) = Ok r) /\
     (forall t,
        outcome (tryBlock up) = Throw t ->
        tryCatch tryBlock (fun error => ret (formatError E error)) up =
        (calls (tryBlock up), Ok (formatError E t)))) /\
  (forall a t,
     outcome (CreateTask.body credentials a up) = Throw t ->
     CreateTask.handler E credentials a up =
     (calls (CreateTask.body credentials a up), Ok (formatError E t))) /\
  (forall a t,
     outcome (GetTask.body credentials a up) = Throw t ->
     GetTask.handler E credentials a up =
     (calls (GetTask.body credentials a up), Ok (formatError E t))) /\
  (forall a t,
     outcome (ListProjectTasks.body credentials a up) = Throw t ->
     ListProjectTasks.handler E credentials a up =
     (calls (ListProjectTasks.body credentials a up), Ok (formatError E t))) /\
  (forall t,
     formatError E t =
     {| content :=
          [{| type := "text";
              text := stringify2 (VObj [("error", VStr (errorText E t));
                                        ("details", formatErrorForLogging E t)]) |}];
        isError := Some true |}) /\
  (forall e,
     errorText E (ThrowApi e) =
     "Error: " ++ apiMessage E e ++ (if retryable E e then " (retryable)" else "")) /\
  (forall n m, errorText E (ThrowError n m) = "Error: " ++ m) /\
  (forall v, errorText E (ThrowValue v) = "Error: " ++ toStr v) /\
  (forall m hint, retryable E (RateLimitError m hint) = true) /\
  (forall m, retryable E (AuthenticationError m) = false) /\
  (forall t,
     outcome (getMe credentials up) = Throw t ->
     TestConnection.handler E credentials up =
     (calls (getMe credentials up),
      Ok {| content :=
              [{| type := "text";
                  text := stringify2
                    (VObj [("connected", VBool false);
                           ("message", VStr (messageOr E t "Connection failed"))]) |}];
            isError := None |})) /\
  (forall mcp (request : Request),
     fetch E mcp request up =
       mcp (createStatelessServer E (parseTenantCredentials request)) request up \/
     answeredWith 200 (fetch E mcp request up) \/
     answeredWith 501 (fetch E mcp request up) \/
     (answeredWith 401 (fetch E mcp request up) /\
      pathname request = "/mcp" /\ method request = "POST" /\
      validateCredentials (parseTenantCredentials request) = Throw missingCredentials)).
Proof.
  repeat apply conj.
  - intros [a | a | a |]; cbn; apply tryCatch_ret_total.
  - intro tryBlock. split; [apply tryCatch_ret_total |].
    intros t H. now apply tryCatch_ret_caught.
  - intros a t H. now apply tryCatch_ret_caught.
  - intros a t H. now apply tryCatch_ret_caught.
  - intros a t H. now apply tryCatch_ret_caught.
  - reflexivity.
  - intro e. unfold errorText. now rewrite append_assoc.
  - reflexivity.
  - reflexivity.
  - reflexivity.
  - reflexivity.
  - intros t H. unfold TestConnection.handler.
    assert (Hb : TestConnection.body E credentials up =
                 (calls (getMe credentials up),
                  Ok (textResponse
                        (stringify2
                           (VObj [("connected", VBool false);
                                  ("message",
                                   VStr (messageOr E t "Connection failed"))]))))).
    { unfold TestConnection.body, bind.
      rewrite (testConnection_caught E credentials up t H). cbn.
      now rewrite app_nil_r. }
    rewrite (tryCatch_ret_passed _ _ up _ (f_equal snd Hb)). now rewrite Hb.
  - intros mcp request.
    destruct (pathname request =? "/health") eqn:Hh.
    { apply String.eqb_eq in Hh. right; left.
      exists healthResponse. now rewrite (fetch_health E mcp request up Hh). }
    destruct (pathname request =? "/sse") eqn:Hs.
    { apply String.eqb_eq in Hs. right; right; left.
      exists sseResponse. now rewrite (fetch_sse E mcp request up Hs). }
    apply String.eqb_neq in Hh. apply String.eqb_neq in Hs.
    destruct (pathname request =? "/mcp") eqn:Hm;
      [ destruct (method request =? "POST") eqn:Hp | ].
    + apply String.eqb_eq in Hm. apply String.eqb_eq in Hp.
      rewrite (fetch_mcp_post E mcp request up Hm Hp).
      unfold validateCredentials.
      destruct (accessToken (parseTenantCredentials request) =? "").
      * right; right; right. repeat apply conj; auto.
        eexists; split; reflexivity.
      * now left.
    + apply String.eqb_neq in Hp. right; left. exists defaultResponse.
      rewrite (fetch_default E mcp request up Hh Hs); auto.
    + apply String.eqb_neq in Hm. right; left. exists defaultResponse.
      rewrite (fetch_default E mcp request up Hh Hs); auto.
Qed.

Lemma tool_errors_become_envelopes_witness :
  ListProjectTasks.handler specErrors tenant
    {| ListProjectTasks.projectGid := "77"; ListProjectTasks.limit := Some 50%Z;
       ListProjectTasks.offset := None; ListProjectTasks.format := FormatMarkdown |}
    (answering 429 [("Retry-After", "30")] None)
  = (calls (ListProjectTasks.body tenant
              {| ListProjectTasks.projectGid := "77"; ListProjectTasks.limit := Some 50%Z;
                 ListProjectTasks.offset := None;
                 ListProjectTasks.format := FormatMarkdown |}
              (answering 429 [("Retry-After", "30")] None)),
     Ok (formatError specErrors
           (ThrowApi (RateLimitError "Rate limit exceeded" (Num 30)))))
  /\
  errorText specErrors (ThrowApi (RateLimitError "Rate limit exceeded" (Num 30)))
  = "Error: Rate limit exceeded (retryable)".
Proof.
  destruct (tool_errors_become_envelopes specErrors tenant
              (answering 429 [("Retry-After", "30")] None))
    as (_ & _ & _ & _ & Hlist & _ & Htext & _).
  split.
  - apply Hlist. reflexivity.
  - rewrite Htext. reflexivity.
Defined.

(* ========================================================================= *)
(** ** Client: every failure status                                           *)
(* ========================================================================= *)

Lemma requestOutcome_auth endpoint response :
  status response = 401%Z \/ status response = 403%Z ->
  requestOutcome endpoint response = Throw authFailed.
Proof. unfold requestOutcome. intros [-> | ->]; reflexivity. Qed.

Lemma paginatedOutcome_auth response :
  status response = 401%Z \/ status response = 403%Z ->
  paginatedOutcome response = Throw authFailed.
Proof. unfold paginatedOutcome. intros [-> | ->]; reflexivity. Qed.

(** X1.  An upstream 401 or 403 becomes the AuthenticationError
    "Authentication failed. Check your Asana access token." on both request
    paths, whatever the headers and the body of the answer, after the one
    outbound call. *)
Theorem auth_status_is_authentication_error credentials endpoint up response :
  accessToken credentials <> "" ->
  status response = 401%Z \/ status response = 403%Z ->
  (forall options,
     up (outbound (authHeaders credentials) endpoint options) = Ok response ->
     request credentials endpoint options up =
     ([outbound (authHeaders credentials) endpoint options], Throw authFailed)) /\
  (forall params,
     up (outboundPaginated (authHeaders credentials) endpoint params) = Ok response ->
     requestPaginated credentials endpoint params up =
     ([outboundPaginated (authHeaders credentials) endpoint params],
      Throw authFailed)).
Proof.
  intros Htok Hst. split.
  - intros options Hup. rewrite (request_run _ _ _ up Htok), Hup. cbn.
    now rewrite (requestOutcome_auth _ _ Hst).
  - intros params Hup. rewrite (requestPaginated_run _ _ _ up Htok), Hup. cbn.
    now rewrite (paginatedOutcome_auth _ Hst).
Qed.

Lemma auth_status_is_authentication_error_witness :
  request tenant "/tasks/12345" noInit
    (answering 403 [] (Some (VObj [("errors", VArr [VObj [("message", VStr "Forbidden")]])])))
  = ([outbound (authHeaders tenant) "/tasks/12345" noInit], Throw authFailed).
Proof.
  refine (proj1 (auth_status_is_authentication_error tenant "/tasks/12345" _
                   {| status := 403; respHeaders := [];
                      bodyJson :=
                        Some (VObj [("errors",
                                     VArr [VObj [("message", VStr "Forbidden")]])]) |}
                   _ _)
            noInit _).
  - discriminate.
  - right; reflexivity.
  - reflexivity.
Defined.

Lemma requestOutcome_failure endpoint response :
  ~ (200 <= status response <= 299)%Z ->
  exists e,
    requestOutcome endpoint response = Throw (ThrowApi e) /\
    (status response <> 429%Z -> status response <> 401%Z ->
     status response <> 403%Z -> status response <> 404%Z ->
     e = ApiError (errorMessage response) (status response)).
Proof.
  intro Hno. unfold requestOutcome, ok.
  destruct (status response =? 429)%Z eqn:H429;
    [ apply Z.eqb_eq in H429; eexists; split; [reflexivity | congruence] | ].
  destruct (status response =? 401)%Z eqn:H401;
    [ apply Z.eqb_eq in H401; eexists; split; [reflexivity | congruence] | ].
  destruct (status response =? 403)%Z eqn:H403;
    [ apply Z.eqb_eq in H403; eexists; split; [reflexivity | congruence] | ].
  destruct (status response =? 404)%Z eqn:H404;
    [ apply Z.eqb_eq in H404; eexists; split; [reflexivity | congruence] | ].
  cbn.
  assert (Hok : ((200 <=? status response) && (status response <=? 299))%Z%bool = false).
  { apply andb_false_iff.
    destruct (Z_le_dec 200 (status response)); [right | left];
      [apply Z.leb_gt | apply Z.leb_gt]; lia. }
  rewrite Hok. cbn. eexists; split; [reflexivity | reflexivity].
Qed.

Lemma paginatedOutcome_failure response :
  ~ (200 <= status response <= 299)%Z ->
  exists e,
    paginatedOutcome response = Throw (ThrowApi e) /\
    (status response <> 429%Z -> status response <> 401%Z ->
     status response <> 403%Z ->
     e = ApiError (errorMessage response) (status response)).
Proof.
  intro Hno. unfold paginatedOutcome, ok.
  destruct (status response =? 429)%Z eqn:H429;
    [ apply Z.eqb_eq in H429; eexists; split; [reflexivity | congruence] | ].
  destruct (status response =? 401)%Z eqn:H401;
    [ apply Z.eqb_eq in H401; eexists; split; [reflexivity | congruence] | ].
  destruct (status response =? 403)%Z eqn:H403;
    [ apply Z.eqb_eq in H403; eexists; split; [reflexivity | congruence] | ].
  cbn.
  assert (Hok : ((200 <=? status response) && (status response <=? 299))%Z%bool = false).
  { apply andb_false_iff.
    destruct (Z_le_dec 200 (status response)); [right | left];
      [apply Z.leb_gt | apply Z.leb_gt]; lia. }
  rewrite Hok. cbn. eexists; split; [reflexivity | reflexivity].
Qed.

(** X2.  A status outside 200..299 never yields a value: both request paths
    throw a classified API error, and for a status that has no class of its
    own (not 429, 401, 403, nor, on the single-resource path, 404) that error
    is the generic one and carries the status. *)
Theorem failure_status_never_succeeds credentials endpoint up response :
  accessToken credentials <> "" ->
  ~ (200 <= status response <= 299)%Z ->
  (forall options,
     up (outbound (authHeaders credentials) endpoint options) = Ok response ->
     exists e,
       outcome (request credentials endpoint options up) = Throw (ThrowApi e) /\
       (status response <> 429%Z -> status response <> 401%Z ->
        status response <> 403%Z -> status response <> 404%Z ->
        e = ApiError (errorMessage response) (status response))) /\
  (forall params,
     up (outboundPaginated (authHeaders credentials) endpoint params) = Ok response ->
     exists e,
       outcome (requestPaginated credentials endpoint params up) = Throw (ThrowApi e) /\
       (status response <> 429%Z -> status response <> 401%Z ->
        status response <> 403%Z ->
        e = ApiError (errorMessage response) (status response))).
Proof.
  intros Htok Hno. split.
  - intros options Hup. rewrite (request_run _ _ _ up Htok), Hup. cbn.
    apply requestOutcome_failure, Hno.
  - intros params Hup. rewrite (requestPaginated_run _ _ _ up Htok), Hup. cbn.
    apply paginatedOutcome_failure, Hno.
Qed.

Lemma failure_status_never_succeeds_witness :
  exists e,
    outcome (request tenant "/tasks/12345" noInit (answering 500 [] None))
    = Throw (ThrowApi e) /\
    (500 <> 429 -> 500 <> 401 -> 500 <> 403 -> 500 <> 404 ->
     e = ApiError "Asana API error: 500" 500)%Z.
Proof.
  refine (proj1 (failure_status_never_succeeds tenant "/tasks/12345"
                   (answering 500 [] None)
                   {| status := 500; respHeaders := []; bodyJson := None |} _ _)
            noInit _).
  - discriminate.
  - cbn; lia.
  - reflexivity.
Defined.

(** X3.  The message of a generic API error: the [message] of the first
    element of the body's [errors] array when it is a non-empty string, else
    the body's own [message], else "Asana API error: <status>"; a body that is
    not JSON, or is the JSON [null], gives that default as well. *)
Theorem generic_error_message_fallbacks response :
  (bodyJson response = None -> errorMessage response = defaultMessage response) /\
  (bodyJson response = Some VNull -> errorMessage response = defaultMessage response) /\
  (forall fields first rest m,
     bodyJson response = Some (VObj fields) ->
     lookup "errors" fields = Some (VArr (first :: rest)) ->
     optProp first "message" = VStr m -> m <> "" ->
     errorMessage response = m) /\
  (forall fields m,
     bodyJson response = Some (VObj fields) ->
     lookup "errors" fields = None ->
     lookup "message" fields = Some (VStr m) -> m <> "" ->
     errorMessage response = m) /\
  (forall fields,
     bodyJson response = Some (VObj fields) ->
     (lookup "errors" fields = None \/ lookup "errors" fields = Some (VArr [])) ->
     lookup "message" fields = None ->
     errorMessage response = defaultMessage response).
Proof.
  unfold errorMessage, defaultMessage. repeat apply conj.
  - now intros ->.
  - now intros ->.
  - intros fields first rest m -> Herr Hm Hne. cbn. rewrite Herr. cbn.
    rewrite Hm. unfold jsOr. cbn.
    rewrite !(eqb_empty_false _ Hne). cbn.
    now rewrite (eqb_empty_false _ Hne).
  - intros fields m -> Herr Hm Hne. cbn. rewrite Herr, Hm. cbn.
    unfold jsOr. cbn.
    rewrite !(eqb_empty_false _ Hne). cbn.
    now rewrite ?(eqb_empty_false _ Hne).
  - intros fields -> [Herr | Herr] Hm; cbn; rewrite Herr, Hm; reflexivity.
Qed.

Lemma generic_error_message_fallbacks_witness :
  errorMessage
    {| status := 400; respHeaders := [];
       bodyJson := Some (VObj [("errors",
                                VArr [VObj [("message", VStr "workspace: Missing input");
                                            ("help", VStr "see the docs")]])]) |}
  = "workspace: Missing input" /\
  errorMessage {| status := 502; respHeaders := []; bodyJson := None |}
  = "Asana API error: 502".
Proof.
  split.
  - refine (proj1 (proj2 (proj2 (generic_error_message_fallbacks
              {| status := 400; respHeaders := [];
                 bodyJson :=
                   Some (VObj [("errors",
                                VArr [VObj [("message", VStr "workspace: Missing input");
                                            ("help", VStr "see the docs")]])]) |})))
              _ _ _ "workspace: Missing input" eq_refl eq_refl eq_refl _).
    discriminate.
  - exact (proj1 (generic_error_message_fallbacks
                    {| status := 502; respHeaders := []; bodyJson := None |}) eq_refl).
Defined.

(** X4.  With a token, a resource method makes exactly one outbound call,
    whatever the remote side answers (a 429, a 5xx or a rejected [fetch]
    included: nothing is retried); the call goes to the fixed base URL followed
    by the endpoint and carries the token as [Authorization: Bearer <token>]
    next to the JSON content headers. *)
Theorem one_call_with_bearer_token credentials endpoint up :
  accessToken credentials <> "" ->
  (forall m b,
     exists rq,
       calls (request credentials endpoint
                {| initMethod := m; initBody := b; initHeaders := None |} up) = [rq] /\
       url rq = "https://app.asana.com/api/1.0" ++ endpoint /\
       fetchMethod rq = m /\ fetchBody rq = b /\
       headersGet (fetchHeaders rq) "Authorization"
         = Some ("Bearer " ++ accessToken credentials) /\
       headersGet (fetchHeaders rq) "Content-Type" = Some "application/json" /\
       headersGet (fetchHeaders rq) "Accept" = Some "application/json") /\
  (forall params,
     exists rq,
       calls (requestPaginated credentials endpoint params up) = [rq] /\
       url rq = "https://app.asana.com/api/1.0" ++ paginatedUrl endpoint params /\
       fetchMethod rq = None /\ fetchBody rq = None /\
       headersGet (fetchHeaders rq) "Authorization"
         = Some ("Bearer " ++ accessToken credentials)).
Proof.
  intro Htok. split.
  - intros m b. eexists. rewrite (request_run _ _ _ up Htok). cbn [calls fst].
    repeat apply conj; reflexivity.
  - intros params. eexists. rewrite (requestPaginated_run _ _ _ up Htok).
    cbn [calls fst]. repeat apply conj; reflexivity.
Qed.

Lemma one_call_with_bearer_token_witness :
  exists rq,
    calls (requestPaginated tenant "/workspaces" noParams (answering 429 [] None))
      = [rq] /\
    url rq = "https://app.asana.com/api/1.0" ++ paginatedUrl "/workspaces" noParams /\
    fetchMethod rq = None /\ fetchBody rq = None /\
    headersGet (fetchHeaders rq) "Authorization" = Some "Bearer 0/abcdef".
Proof.
  refine (proj2 (one_call_with_bearer_token tenant "/workspaces"
                   (answering 429 [] None) _) noParams).
  discriminate.
Defined.

(* ========================================================================= *)
(** ** Client: query strings                                                  *)
(* ========================================================================= *)

Lemma append_empty_r (s : string) : s ++ "" = s.
Proof. induction s as [| c s IH]; cbn; [reflexivity | now rewrite IH]. Qed.

Lemma allChars_app p a b :
  allChars p (a ++ b) = (allChars p a && allChars p b)%bool.
Proof.
  induction a as [| x a IH]; cbn; [reflexivity |].
  now rewrite IH, andb_assoc.
Qed.

Lemma allChars_join p sep l :
  allChars p sep = true -> Forall (fun x => allChars p x = true) l ->
  allChars p (join sep l) = true.
Proof.
  intros Hsep Hl. induction Hl as [| x l Hx Hl IH]; [reflexivity |].
  destruct l as [| y l']; [exact Hx |].
  change (join sep (x :: y :: l')) with (x ++ sep ++ join sep (y :: l')).
  now rewrite !allChars_app, Hx, Hsep, IH.
Qed.

Lemma allChars_excludes p c s :
  allChars p s = true -> p c = false -> includesChar c s = false.
Proof.
  intros Hs Hc. induction s as [| x s IH]; [reflexivity |].
  cbn in *. apply andb_true_iff in Hs. destruct Hs as [Hx Hs].
  rewrite (IH Hs), orb_false_r.
  destruct (Ascii.eqb x c) eqn:E; [| reflexivity].
  apply Ascii.eqb_eq in E. congruence.
Qed.

Lemma allChars_weaken (p q : ascii -> bool) s :
  (forall c, p c = true -> q c = true) -> allChars p s = true -> allChars q s = true.
Proof.
  intros Hpq. induction s as [| x s IH]; [reflexivity |].
  cbn. intro H. apply andb_true_iff in H. destruct H as [Hx Hs].
  now rewrite (Hpq _ Hx), (IH Hs).
Qed.

Lemma hexUpper_unreserved k : isUnreserved (hexUpper k) = true.
Proof. do 16 (destruct k as [| k]; [reflexivity |]). reflexivity. Qed.

(** A form-encoded text holds only unreserved characters, [+] and [%]. *)
Lemma formEncode_encoded s : allChars encodedChar (formEncode s) = true.
Proof.
  induction s as [| c s IH]; [reflexivity |].
  cbn [formEncode]. rewrite allChars_app, IH, andb_true_r.
  destruct (isUnreserved c) eqn:Hu.
  - cbn. unfold encodedChar. now rewrite Hu.
  - destruct (Nat.eqb (nat_of_ascii c) 32); [reflexivity |].
    cbn. unfold encodedChar at 2 3. now rewrite !hexUpper_unreserved.
Qed.

Lemma paramsToString_query ps : allChars queryChar (paramsToString ps) = true.
Proof.
  unfold paramsToString. apply allChars_join; [reflexivity |].
  apply Forall_map, Forall_forall. intros [k v] _. cbn.
  rewrite !allChars_app. cbn.
  assert (Hw : forall s, allChars queryChar (formEncode s) = true).
  { intro s. apply (allChars_weaken encodedChar); [| apply formEncode_encoded].
    intros c Hc. unfold queryChar. now rewrite Hc. }
  now rewrite !Hw.
Qed.



(** [requestPaginated] appends what [sentPairs] lists, after [?] or [&]. *)
Lemma paginatedUrl_sent endpoint params :
  paginatedUrl endpoint params =
  endpoint ++
  match sentPairs params with
  | [] => ""
  | ps => (if includesChar "?" endpoint then "&" else "?") ++ paramsToString ps
  end.
Proof.
  destruct params as [[l |] [o |]]; unfold paginatedUrl, sentPairs; cbn;
    try destruct (l =? 0)%Z; try destruct (o =? ""); reflexivity.
Qed.



Lemma countChar_app c a b : countChar c (a ++ b) = countChar c a + countChar c b.
Proof.
  induction a as [| x a IH]; cbn; [reflexivity |]. rewrite IH. lia.
Qed.

Lemma countChar_absent p c s :
  allChars p s = true -> p c = false -> countChar c s = 0.
Proof.
  intros Hs Hc. induction s as [| x s IH]; [reflexivity |].
  cbn in *. apply andb_true_iff in Hs. destruct Hs as [Hx Hs].
  rewrite (IH Hs).
  destruct (Ascii.eqb x c) eqn:E; [| reflexivity].
  apply Ascii.eqb_eq in E. congruence.
Qed.

Lemma formEncode_no_equals s : countChar "=" (formEncode s) = 0.
Proof. apply (countChar_absent encodedChar); [apply formEncode_encoded | reflexivity]. Qed.

Lemma formEncode_no_ampersand s : countChar "&" (formEncode s) = 0.
Proof. apply (countChar_absent encodedChar); [apply formEncode_encoded | reflexivity]. Qed.

Lemma paramsToString_cons p q ps :
  paramsToString (p :: q :: ps) =
  (formEncode (fst p) ++ "=" ++ formEncode (snd p)) ++ "&" ++ paramsToString (q :: ps).
Proof. reflexivity. Qed.

(** A serialised query has one [=] per pair and one [&] between pairs. *)
Lemma paramsToString_equals ps : countChar "=" (paramsToString ps) = List.length ps.
Proof.
  induction ps as [| p ps IH]; [reflexivity |].
  destruct ps as [| q ps].
  - unfold paramsToString. cbn [map join].
    rewrite !countChar_app, !formEncode_no_equals. reflexivity.
  - rewrite paramsToString_cons, !countChar_app, IH, !formEncode_no_equals.
    cbn. lia.
Qed.

Lemma paramsToString_ampersands ps :
  countChar "&" (paramsToString ps) = Nat.pred (List.length ps).
Proof.
  induction ps as [| p ps IH]; [reflexivity |].
  destruct ps as [| q ps].
  - unfold paramsToString. cbn [map join].
    rewrite !countChar_app, !formEncode_no_ampersand. reflexivity.
  - rewrite paramsToString_cons, !countChar_app, IH, !formEncode_no_ampersand.
    cbn. lia.
Qed.

Lemma sentPairs_length params : List.length (sentPairs params) <= 2.
Proof.
  destruct params as [[l |] [o |]]; unfold sentPairs; cbn [limit offset];
    try destruct (l =? 0)%Z; try destruct (o =? ""); cbn; lia.
Qed.

(** X6.  Whatever the endpoint, the limit and the offset token, what
    [requestPaginated] adds to the endpoint is nothing, or the separator
    followed by a query made only of unreserved characters, [+], [%], [&] and
    [=], with at most two [=] and one [&]: an offset token cannot add or cut a
    parameter of its own. *)
Theorem pagination_suffix_is_encoded endpoint params :
  exists suffix,
    paginatedUrl endpoint params = endpoint ++ suffix /\
    (suffix = "" \/
     exists q,
       suffix = (if includesChar "?" endpoint then "&" else "?") ++ q /\
       allChars queryChar q = true /\
       countChar "=" q <= 2 /\ countChar "&" q <= 1).
Proof.
  rewrite paginatedUrl_sent. eexists. split; [reflexivity |].
  destruct (sentPairs params) as [| p ps] eqn:Hs; [now left | right].
  eexists. split; [reflexivity |]. split; [apply paramsToString_query |].
  rewrite <- Hs, paramsToString_equals, paramsToString_ampersands.
  pose proof (sentPairs_length params). lia.
Qed.

(** X7.  The URL of [listTasks], filters and pagination together, is
    ["/tasks"] alone or ["/tasks?"] followed by a query of encoded text, [&]
    and [=]: the pagination is joined with [&] exactly when a filter has
    already opened the query, so the URL never holds a second [?]. *)
Theorem list_tasks_url_is_well_formed (filters : TaskFilters) :
  exists q,
    paginatedUrl (listTasksEndpoint filters) (pagination filters) = "/tasks" ++ q /\
    (q = "" \/ exists q', q = "?" ++ q' /\ allChars queryChar q' = true) /\
    countChar "?" (paginatedUrl (listTasksEndpoint filters) (pagination filters)) <= 1.
Proof.
  assert (Hshape : exists q,
    paginatedUrl (listTasksEndpoint filters) (pagination filters) = "/tasks" ++ q /\
    (q = "" \/ exists q', q = "?" ++ q' /\ allChars queryChar q' = true)).
  { rewrite paginatedUrl_sent. unfold listTasksEndpoint.
    match goal with |- context [paramsToString ?Q =? ""] => set (query := paramsToString Q) end.
    assert (Hq : allChars queryChar query = true) by apply paramsToString_query.
    destruct (query =? "") eqn:He.
    - cbn. destruct (sentPairs (pagination filters)) as [| p ps] eqn:Hs.
      + exists "". split; [reflexivity | now left].
      + exists ("?" ++ paramsToString (p :: ps)). split; [reflexivity | right].
        eexists. split; [reflexivity | apply paramsToString_query].
    - assert (Hinc : includesChar "?" ("/tasks" ++ "?" ++ query) = true) by reflexivity.
      rewrite Hinc.
      destruct (sentPairs (pagination filters)) as [| p ps] eqn:Hs.
      + exists ("?" ++ query). split; [now rewrite append_empty_r | right].
        eexists. split; [reflexivity | exact Hq].
      + exists ("?" ++ query ++ "&" ++ paramsToString (p :: ps)). split.
        * now rewrite !append_assoc.
        * right. eexists. split; [reflexivity |].
          rewrite !allChars_app, Hq, paramsToString_query. reflexivity. }
  destruct Hshape as (q & Hurl & Hq). exists q. repeat apply conj; auto.
  rewrite Hurl, countChar_app. cbn.
  destruct Hq as [-> | (q' & -> & Hq')]; cbn; [lia |].
  rewrite (countChar_absent queryChar "?" q' Hq' eq_refl). lia.
Qed.

Lemma paramsSet_fresh k v ps :
  (forall p, In p ps -> fst p <> k) -> paramsSet k v ps = app ps [(k, v)].
Proof.
  induction ps as [| [k' v'] ps IH]; intro H; cbn; [reflexivity |].
  assert (Hk : (k' =? k) = false).
  { apply String.eqb_neq. apply (H (k', v')). now left. }
  rewrite Hk, IH; [reflexivity |]. intros p Hp. apply H. now right.
Qed.

(** Over an object whose keys are distinct, the loop of [searchTasks] keeps
    one pair per property that is neither [undefined] nor [null], in order. *)
Lemma searchQuery_pairs params acc :
  NoDup (map fst params) ->
  (forall p, In p acc -> ~ In (fst p) (map fst params)) ->
  fold_left
    (fun queryParams kv =>
       if nullish (snd kv) then queryParams
       else paramsSet (fst kv) (toStr (snd kv)) queryParams)
    params acc = app acc (flat_map searchPair params).
Proof.
  revert acc. induction params as [| [k v] params IH]; intros acc Hnd Hacc; cbn.
  - now rewrite app_nil_r.
  - inversion Hnd as [| ? ? Hk Hnd']; subst.
    cbn [flat_map]. unfold searchPair at 1. cbn [fst snd].
    destruct (nullish v).
    + cbn [app]. apply IH; [exact Hnd' |].
      intros p Hp Hin. apply (Hacc p Hp). now right.
    + rewrite paramsSet_fresh.
      * rewrite IH; [now rewrite <- app_assoc | exact Hnd' |].
        intros p Hp Hin. apply in_app_or in Hp. destruct Hp as [Hp | [<- | []]].
        -- apply (Hacc p Hp). now right.
        -- now apply Hk.
      * intros p Hp E. apply (Hacc p Hp). now left.
Qed.

Lemma searchParams_distinct a : NoDup (map fst (SearchTasks.params a)).
Proof.
  cbn. repeat constructor; cbn; intuition discriminate.
Qed.

Lemma paginationOf_searchParams a :
  paginationOf (SearchTasks.params a) =
  {| limit := SearchTasks.limit a; offset := SearchTasks.offset a |}.
Proof.
  unfold paginationOf, SearchTasks.params. cbn.
  destruct (SearchTasks.limit a), (SearchTasks.offset a); reflexivity.
Qed.

(** X8.  [searchTasks] writes every given search parameter into the endpoint's
    query, the limit and the offset among them, and [requestPaginated] then
    appends the limit (when not 0) and the offset (when not empty) once more
    after [&]: a search with a page size sends [limit] twice.  With no parameter
    at all the URL ends in a bare [?]. *)
Theorem search_tasks_repeats_pagination gid a :
  paginatedUrl (searchTasksEndpoint gid (SearchTasks.params a))
               (paginationOf (SearchTasks.params a)) =
  "/workspaces/" ++ gid ++ "/tasks/search?" ++
  paramsToString (flat_map searchPair (SearchTasks.params a)) ++
  match sentPairs {| limit := SearchTasks.limit a; offset := SearchTasks.offset a |} with
  | [] => ""
  | ps => "&" ++ paramsToString ps
  end /\
  (forall l,
     SearchTasks.limit a = Some l ->
     In ("limit", decZ l) (flat_map searchPair (SearchTasks.params a)) /\
     (l <> 0%Z ->
      In ("limit", decZ l)
         (sentPairs {| limit := SearchTasks.limit a; offset := SearchTasks.offset a |}))) /\
  (forall o,
     SearchTasks.offset a = Some o ->
     In ("offset", o) (flat_map searchPair (SearchTasks.params a)) /\
     (o <> "" ->
      In ("offset", o)
         (sentPairs {| limit := SearchTasks.limit a; offset := SearchTasks.offset a |}))).
Proof.
  repeat apply conj.
  - rewrite paginatedUrl_sent, paginationOf_searchParams.
    unfold searchTasksEndpoint, searchQuery.
    rewrite (searchQuery_pairs _ [] (searchParams_distinct a));
      [| intros p []].
    cbn [app].
    assert (Hinc : forall x y, includesChar "?" ("/workspaces/" ++ x ++ "/tasks/search?" ++ y) = true).
    { intros x y. change ("/workspaces/" ++ x ++ "/tasks/search?" ++ y)
        with ("/workspaces/" ++ (x ++ "/tasks/search?" ++ y)).
      rewrite !includesChar_app. cbn. now rewrite !orb_true_r. }
    rewrite Hinc. now rewrite !append_assoc.
  - intros l Hl. split.
    + apply in_flat_map. exists ("limit", VNum (Num l)). split.
      * unfold SearchTasks.params. rewrite Hl. cbn. tauto.
      * now left.
    + intro Hne. unfold sentPairs. cbn [limit offset]. rewrite Hl.
      apply Z.eqb_neq in Hne. rewrite Hne. now left.
  - intros o Ho. split.
    + apply in_flat_map. exists ("offset", VStr o). split.
      * unfold SearchTasks.params. rewrite Ho. cbn. tauto.
      * now left.
    + intro Hne. unfold sentPairs. cbn [limit offset]. rewrite Ho.
      rewrite (eqb_empty_false _ Hne). apply in_or_app. right. now left.
Qed.

Lemma search_tasks_repeats_pagination_witness :
  In ("limit", decZ 10)
     (flat_map searchPair
        (SearchTasks.params
           {| SearchTasks.workspaceGid := "999"; SearchTasks.text := Some "spec";
              SearchTasks.completed := Some false; SearchTasks.assigneeAny := None;
              SearchTasks.projectsAny := None; SearchTasks.tagsAny := None;
              SearchTasks.dueOnBefore := None; SearchTasks.dueOnAfter := None;
              SearchTasks.sortBy := None; SearchTasks.sortAscending := None;
              SearchTasks.limit := Some 10%Z; SearchTasks.offset := None;
              SearchTasks.format := FormatJson |})) /\
  In ("limit", decZ 10) (sentPairs {| limit := Some 10%Z; offset := None |}).
Proof.
  destruct (search_tasks_repeats_pagination "999"
     {| SearchTasks.workspaceGid := "999"; SearchTasks.text := Some "spec";
        SearchTasks.completed := Some false; SearchTasks.assigneeAny := None;
        SearchTasks.projectsAny := None; SearchTasks.tagsAny := None;
        SearchTasks.dueOnBefore := None; SearchTasks.dueOnAfter := None;
        SearchTasks.sortBy := None; SearchTasks.sortAscending := None;
        SearchTasks.limit := Some 10%Z; SearchTasks.offset := None;
        SearchTasks.format := FormatJson |}) as (_ & Hl & _).
  destruct (Hl 10%Z eq_refl) as [H1 H2].
  split; [exact H1 | apply H2; discriminate].
Defined.

(* ========================================================================= *)
(** ** Tools: what the write handlers send                                    *)
(* ========================================================================= *)

Lemma stringify_defined v : v <> VUndefined -> exists s, stringify v = Some s.
Proof.
  destruct v as [| | [|] | [| z] | s | items | fields]; intro H;
    try contradiction; cbn; eauto.
Qed.








Lemma delete_after_request E credentials gid up rq r :
  request credentials ("/tasks/" ++ gid)
    {| initMethod := Some "DELETE"; initBody := None; initHeaders := None |} up
  = ([rq], r) ->
  DeleteTask.handler E credentials gid up =
  ([rq],
   Ok match r with
      | Ok _ => textResponse (stringify2 (VObj [("success", VBool true);
                                                ("message", VStr "Task deleted")]))
      | Throw t => formatError E t
      end).
Proof.
  intro H. unfold DeleteTask.handler, DeleteTask.body, deleteTask, tryCatch, bind.
  rewrite H. destruct r; reflexivity.
Qed.

(** X10.  [asana_delete_task] issues one [DELETE /tasks/<gid>] and answers
    [{success: true, message: "Task deleted"}] when the status is 204, or is
    another 2xx with a JSON body other than [null]; the body's content is not
    looked at further.  A 2xx other than 204 whose body is not JSON is reported
    through the error envelope, although the remote side accepted the
    deletion. *)
Theorem delete_task_outcomes E credentials gid up response :
  accessToken credentials <> "" ->
  up (outbound (authHeaders credentials) ("/tasks/" ++ gid)
        {| initMethod := Some "DELETE"; initBody := None; initHeaders := None |})
  = Ok response ->
  (status response = 204%Z \/
   ((200 <= status response <= 299)%Z /\
    exists j, bodyJson response = Some j /\ nullish j = false) ->
   DeleteTask.handler E credentials gid up =
   ([outbound (authHeaders credentials) ("/tasks/" ++ gid)
       {| initMethod := Some "DELETE"; initBody := None; initHeaders := None |}],
    Ok {| content :=
            [{| type := "text";
                text := stringify2 (VObj [("success", VBool true);
                                          ("message", VStr "Task deleted")]) |}];
          isError := None |})) /\
  ((200 <= status response <= 299)%Z -> status response <> 204%Z ->
   bodyJson response = None ->
   DeleteTask.handler E credentials gid up =
   ([outbound (authHeaders credentials) ("/tasks/" ++ gid)
       {| initMethod := Some "DELETE"; initBody := None; initHeaders := None |}],
    Ok (formatError E syntaxError))).
Proof.
  intros Htok Hup.
  pose proof (request_run credentials ("/tasks/" ++ gid)
                {| initMethod := Some "DELETE"; initBody := None; initHeaders := None |}
                up Htok) as Hrun.
  rewrite Hup in Hrun. cbn [rbind] in Hrun.
  rewrite (delete_after_request E _ _ _ _ _ Hrun).
  split.
  - intros [H204 | (Hok & j & Hj & Hn)].
    + now rewrite (requestOutcome_204 _ _ H204).
    + destruct (Z.eq_dec (status response) 204) as [H204 | H204];
        [now rewrite (requestOutcome_204 _ _ H204) |].
      rewrite (requestOutcome_success _ _ Hok H204). unfold responseJson.
      rewrite Hj. cbn. destruct j; try discriminate; reflexivity.
  - intros Hok H204 Hnone.
    rewrite (requestOutcome_success _ _ Hok H204). unfold responseJson.
    now rewrite Hnone.
Qed.

Lemma delete_task_outcomes_witness :
  DeleteTask.handler specErrors tenant "12345"
    (answering 200 [] (Some (VObj [("data", VObj [])])))
  = ([outbound (authHeaders tenant) ("/tasks/" ++ "12345")
        {| initMethod := Some "DELETE"; initBody := None; initHeaders := None |}],
     Ok {| content :=
             [{| type := "text";
                 text := stringify2 (VObj [("success", VBool true);
                                           ("message", VStr "Task deleted")]) |}];
           isError := None |}).
Proof.
  refine (proj1 (delete_task_outcomes specErrors tenant "12345" _
                   {| status := 200; respHeaders := [];
                      bodyJson := Some (VObj [("data", VObj [])]) |} _ _) _).
  - discriminate.
  - reflexivity.
  - right. split; [cbn; lia |]. eexists. split; reflexivity.
Defined.

(* ========================================================================= *)
(** ** Formatter: where Markdown is defined                                   *)
(* ========================================================================= *)







(* ========================================================================= *)
(** ** Formatter: generic table, single object, bare array                    *)
(* ========================================================================= *)









(** X14.  A bare array renders exactly as the last page of a list: the
    Markdown of an array is the Markdown of [{data: array}] with no next page,
    so it has the heading and the count but never a "More available" line; and
    an empty array or page renders, for every entity type, as the heading, a
    count of 0 and ["_No items found._"], never as an empty table. *)
Theorem bare_array_renders_as_last_page items entityType :
  formatAsMarkdown (VArr items) entityType =
    formatAsMarkdown (VObj [("data", VArr items); ("nextPage", VUndefined)])
      entityType /\
  formatAsMarkdown (VArr items) entityType =
    formatAsMarkdown (VObj [("data", VArr items); ("nextPage", VNull)]) entityType /\
  formatAsMarkdown (VArr []) entityType =
    Ok (join nl ["## " ++ capitalize entityType; ""; "**Showing:** 0 items"; "";
                 "_No items found._"]) /\
  formatAsMarkdown (VObj [("data", VArr []); ("nextPage", VUndefined)]) entityType =
    Ok (join nl ["## " ++ capitalize entityType; ""; "**Showing:** 0 items"; "";
                 "_No items found._"]).
Proof.
  repeat apply conj; reflexivity.
Qed.

(* ========================================================================= *)
(** ** Formatter: keys                                                        *)
(* ========================================================================= *)












(* ========================================================================= *)
(** ** Environment numbers                                                    *)
(* ========================================================================= *)












(* ========================================================================= *)
(** ** Credentials: the two guards                                            *)
(* ========================================================================= *)

Lemma filter_none {A} (p : A -> bool) l :
  (forall x, In x l -> p x = false) -> filter p l = [].
Proof.
  induction l as [| x l IH]; intro H; [reflexivity |].
  cbn. rewrite (H x (or_introl eq_refl)). apply IH. intros y Hy. apply H. now right.
Qed.

(** X17.  The transport's [validateCredentials] and the client's
    [getAuthHeaders] accept exactly the same credentials (a non-empty token)
    and reject the same ones, so a request that passes the transport check can
    never fail in the client for lack of a token.  The header is found whatever
    the case of its name, and its value reaches the [Authorization] header
    unchanged after ["Bearer "]. *)
Theorem credential_guards_agree :
  (forall c, validateCredentials c = Ok tt <-> getAuthHeaders c = Ok (authHeaders c)) /\
  (forall c,
     validateCredentials c = Throw missingCredentials <->
     getAuthHeaders c = Throw noTokenError) /\
  (forall (request : Request) tok,
     headersGet (headers request) "X-Asana-Access-Token" = Some tok -> tok <> "" ->
     validateCredentials (parseTenantCredentials request) = Ok tt /\
     getAuthHeaders (parseTenantCredentials request) =
     Ok [("Authorization", "Bearer " ++ tok);
         ("Content-Type", "application/json");
         ("Accept", "application/json")]) /\
  (forall name v rest,
     lowerStr name = "x-asana-access-token" ->
     (forall h, In h rest -> lowerStr (fst h) <> "x-asana-access-token") ->
     headersGet ((name, v) :: rest) "X-Asana-Access-Token" = Some v).
Proof.
  repeat apply conj.
  - intro c. unfold validateCredentials, getAuthHeaders.
    destruct (accessToken c =? ""); split; intro H; try discriminate; reflexivity.
  - intro c. unfold validateCredentials, getAuthHeaders.
    destruct (accessToken c =? ""); split; intro H; try discriminate; reflexivity.
  - intros request tok Hget Hne.
    rewrite (parse_present request tok Hget Hne).
    split; [now apply validate_token | now apply getAuthHeaders_token].
  - intros name v rest Hname Hrest. unfold headersGet.
    cbn [filter fst]. rewrite Hname.
    change (lowerStr "X-Asana-Access-Token") with "x-asana-access-token".
    rewrite String.eqb_refl.
    rewrite filter_none; [reflexivity |].
    intros h Hh. apply String.eqb_neq. now apply Hrest.
Qed.

Lemma credential_guards_agree_witness :
  headersGet [("x-asana-ACCESS-token", "0/abcdef"); ("Accept", "*/*")]
    "X-Asana-Access-Token" = Some "0/abcdef" /\
  getAuthHeaders
    (parseTenantCredentials
       {| pathname := "/mcp"; method := "POST";
          headers := [("x-asana-ACCESS-token", "0/abcdef"); ("Accept", "*/*")];
          body := "{}" |})
  = Ok [("Authorization", "Bearer " ++ "0/abcdef");
        ("Content-Type", "application/json");
        ("Accept", "application/json")].
Proof.
  destruct credential_guards_agree as (_ & _ & Htok & Hcase).
  split.
  - apply Hcase; [reflexivity |].
    intros h [<- | []]. discriminate.
  - apply (Htok {| pathname := "/mcp"; method := "POST";
                   headers := [("x-asana-ACCESS-token", "0/abcdef"); ("Accept", "*/*")];
                   body := "{}" |} "0/abcdef"); [reflexivity | discriminate].
Defined.

(* ========================================================================= *)
(** ** Connection test                                                        *)
(* ========================================================================= *)




(* ========================================================================= *)
(** ** Client: the rate-limit hint                                            *)
(* ========================================================================= *)



